(** * NeonCityChess: the match state component

    A shallow embedding of [UChessGameStateComponent]
    (Private/ChessGameStateComponent.cpp, Public/ChessGameStateComponent.h,
    Public/ChessTypes.h) and the properties of its four operations
    [RefreshState], [ResetMatch], [SelectSquare] and [TryMoveSelectedTo].

    The component is a C++ object mutated in place; here every method takes
    the object and returns the new object together with its return value and
    the effects it had on the outside world (process launches, delegate
    broadcasts, log lines), in the order they happened.  The engine calls
    whose answer depends on the machine (file system, child process, JSON
    reader) are collected in a [Host] record handed to each call. *)

From Stdlib Require Import String Ascii List ZArith NArith Bool Lia.
From Stdlib Require Import Sorted Permutation DecimalString.
From Stdlib Require OrdersEx RelationClasses QArith Qround.
Import ListNotations.
Local Open Scope list_scope.
Local Open Scope string_scope.

(** ** Engine strings *)

Module FString.

Definition Len (s : string) : nat := String.length s.

Definition IsEmpty (s : string) : bool :=
  match s with EmptyString => true | String _ _ => false end.

(** [TChar::ToLower]: only the letters A to Z are changed. *)
Definition ToLowerChar (c : ascii) : ascii :=
  let n := N_of_ascii c in
  if ((65 <=? n) && (n <=? 90))%N then ascii_of_N (n + 32) else c.

Fixpoint ToLower (s : string) : string :=
  match s with
  | EmptyString => EmptyString
  | String c r => String (ToLowerChar c) (ToLower r)
  end.

(** [TChar::IsWhitespace] on the ASCII range: space, tab, line feed,
    vertical tab, form feed, carriage return. *)
Definition IsWhitespace (c : ascii) : bool :=
  let n := N_of_ascii c in
  ((n =? 32) || ((9 <=? n) && (n <=? 13)))%N.

Fixpoint TrimStart (s : string) : string :=
  match s with
  | EmptyString => EmptyString
  | String c r => if IsWhitespace c then TrimStart r else s
  end.

Fixpoint TrimEnd (s : string) : string :=
  match s with
  | EmptyString => EmptyString
  | String c r =>
      match TrimEnd r with
      | EmptyString => if IsWhitespace c then EmptyString else String c EmptyString
      | r' => String c r'
      end
  end.

Definition TrimStartAndEnd (s : string) : string := TrimStart (TrimEnd s).

(** [Left(Count)]: the leftmost [Count] characters, fewer when the string
    is shorter. *)
Fixpoint Left (Count : nat) (s : string) : string :=
  match Count, s with
  | S n, String c r => String c (Left n r)
  | _, _ => EmptyString
  end.

Fixpoint RightChop (Count : nat) (s : string) : string :=
  match Count, s with
  | S n, String _ r => RightChop n r
  | _, _ => s
  end.

(** [Mid(Start, Count)]: [Count] characters from position [Start],
    clamped to the string. *)
Definition Mid (Start Count : nat) (s : string) : string :=
  Left Count (RightChop Start s).

(** [Equals(Other, ESearchCase::CaseSensitive)]. *)
Definition Equals (s Other : string) : bool := String.eqb s Other.

(** [StartsWith(Prefix, ESearchCase::CaseSensitive)]: an empty prefix
    never matches. *)
Definition StartsWith (s Prefix : string) : bool :=
  negb (IsEmpty Prefix) && String.prefix Prefix s.

(** [operator[]] on a position inside the string. *)
Definition At (s : string) (Index : nat) : option ascii := String.get Index s.

(** [operator==] and [operator<] of the engine's string class compare
    without regard to letter case.  They are what [TArray::AddUnique] and
    [TArray::Sort] use on an array of strings. *)
Definition EqIgnoreCase (a b : string) : bool :=
  String.eqb (ToLower a) (ToLower b).

Definition Less (a b : string) : bool :=
  String.ltb (ToLower a) (ToLower b).

(** [ReplaceInline(From, To)] for a one-character [From]. *)
Fixpoint ReplaceChar (From : ascii) (To : string) (s : string) : string :=
  match s with
  | EmptyString => EmptyString
  | String c r =>
      if Ascii.eqb c From then To ++ ReplaceChar From To r
      else String c (ReplaceChar From To r)
  end.

(** The "%d" conversion of [FString::Printf]. *)
Definition PrintInt (z : Z) : string := NilZero.string_of_int (Z.to_int z).

End FString.

Import FString.

(** ** Engine arrays of strings *)

Module TArray.

Definition Add (a : list string) (x : string) : list string := (a ++ [x])%list.

Definition Contains (a : list string) (x : string) : bool :=
  existsb (fun y => EqIgnoreCase y x) a.

Definition AddUnique (a : list string) (x : string) : list string :=
  if Contains a x then a else Add a x.

(** [Pop()] removes the last element. *)
Definition Pop (a : list string) : list string := removelast a.

Fixpoint Insert (x : string) (a : list string) : list string :=
  match a with
  | [] => [x]
  | y :: r => if Less y x then y :: Insert x r else x :: y :: r
  end.

(** [Sort()] orders by [operator<].  The engine's algorithm is not
    stable; on an array whose elements are pairwise different under
    [operator==] every comparison sort returns the same array
    (lemma [Sort_unique] below), so insertion sort stands for it. *)
Fixpoint Sort (a : list string) : list string :=
  match a with
  | [] => []
  | x :: r => Insert x (Sort r)
  end.

End TArray.

(** ** The JSON reader

    A parsed document is seen by the component only through the accessors
    it calls, so a document is the table of their answers: [None] is the
    accessor returning false. *)

Record FJsonValue := MkJsonValue {
  TryGetString : option string
}.

Record FJsonObject := MkJsonObject {
  TryGetStringField : string -> option string;
  TryGetBoolField : string -> option bool;
  (* an element is [None] when the shared pointer is not valid *)
  TryGetArrayField : string -> option (list (option FJsonValue))
}.

(** ** ChessTypes.h *)

Record FChessStatePayload := MkPayload {
  Fen : string;
  Turn : string;
  SelectedSquare : string;
  LegalTargets : list string;
  bIsGameOver : bool;
  StatusText : string;
  ScoreText : string;
  LegalMovesUci : list string
}.

(** The default-constructed struct. *)
Definition DefaultPayload : FChessStatePayload :=
  MkPayload "" "" "" [] false "" "" [].

Definition withFen (v : string) (p : FChessStatePayload) :=
  MkPayload v (Turn p) (SelectedSquare p) (LegalTargets p) (bIsGameOver p)
            (StatusText p) (ScoreText p) (LegalMovesUci p).
Definition withTurn (v : string) (p : FChessStatePayload) :=
  MkPayload (Fen p) v (SelectedSquare p) (LegalTargets p) (bIsGameOver p)
            (StatusText p) (ScoreText p) (LegalMovesUci p).
Definition withSelectedSquare (v : string) (p : FChessStatePayload) :=
  MkPayload (Fen p) (Turn p) v (LegalTargets p) (bIsGameOver p)
            (StatusText p) (ScoreText p) (LegalMovesUci p).
Definition withLegalTargets (v : list string) (p : FChessStatePayload) :=
  MkPayload (Fen p) (Turn p) (SelectedSquare p) v (bIsGameOver p)
            (StatusText p) (ScoreText p) (LegalMovesUci p).
Definition withIsGameOver (v : bool) (p : FChessStatePayload) :=
  MkPayload (Fen p) (Turn p) (SelectedSquare p) (LegalTargets p) v
            (StatusText p) (ScoreText p) (LegalMovesUci p).
Definition withStatusText (v : string) (p : FChessStatePayload) :=
  MkPayload (Fen p) (Turn p) (SelectedSquare p) (LegalTargets p) (bIsGameOver p)
            v (ScoreText p) (LegalMovesUci p).
Definition withScoreText (v : string) (p : FChessStatePayload) :=
  MkPayload (Fen p) (Turn p) (SelectedSquare p) (LegalTargets p) (bIsGameOver p)
            (StatusText p) v (LegalMovesUci p).
Definition withLegalMovesUci (v : list string) (p : FChessStatePayload) :=
  MkPayload (Fen p) (Turn p) (SelectedSquare p) (LegalTargets p) (bIsGameOver p)
            (StatusText p) (ScoreText p) v.

(** ** ChessGameStateComponent.h *)

Record UChessGameStateComponent := MkComponent {
  CurrentState : FChessStatePayload;
  MoveHistoryUci : list string;
  StartFen : string;
  PythonExecutable : string;   (* FFilePath::FilePath *)
  ExportScriptPath : string;   (* FFilePath::FilePath *)
  WorkingDirectory : string    (* FDirectoryPath::Path *)
}.

Definition withCurrentState (v : FChessStatePayload) (c : UChessGameStateComponent) :=
  MkComponent v (MoveHistoryUci c) (StartFen c) (PythonExecutable c)
              (ExportScriptPath c) (WorkingDirectory c).
Definition withMoveHistoryUci (v : list string) (c : UChessGameStateComponent) :=
  MkComponent (CurrentState c) v (StartFen c) (PythonExecutable c)
              (ExportScriptPath c) (WorkingDirectory c).

(** The constructor and the in-class initialisers. *)
Definition NewComponent : UChessGameStateComponent :=
  MkComponent DefaultPayload []
              "rnbqkbnr/pppppppp/8/8/8/8/PPPPPPPP/RNBQKBNR w KQkq - 0 1"
              "python3" "" "".

(** ** The outside world *)

Record ExecResult := MkExec {
  bExecOk : bool;
  ReturnCode : Z;
  StdOut : string;
  StdErr : string
}.

(** What the machine answers during one call of the component. *)
Record Host := MkHost {
  ConvertRelativePathToFull : string -> string;
  Combine : string -> string -> string;
  ProjectDir : string;
  ProjectSavedDir : string;
  FileExists : string -> bool;
  (* executable, parameters, working directory *)
  ExecProcess : string -> string -> string -> ExecResult;
  LoadFileToString : string -> option string;
  (* [None]: [FJsonSerializer::Deserialize] failed or the root is not valid *)
  Deserialize : string -> option FJsonObject
}.

Inductive Event :=
| EvMakeDirectory (Path : string)
| EvExecProcess (Exe Params WorkingDir : string)
| EvBroadcast                      (* OnStateChanged.Broadcast() *)
| EvLogWarning (Message : string). (* UE_LOG(LogTemp, Warning, ...) *)

Definition is_broadcast (e : Event) : bool :=
  match e with EvBroadcast => true | _ => false end.

(** The result of a method call: return value (with the text left in
    [OutError] where the method has that parameter), the object afterwards,
    and the effects in order. *)
Record Outcome (A : Type) := MkOutcome {
  Ret : A;
  Self : UChessGameStateComponent;
  Emitted : list Event
}.
Arguments MkOutcome {A} _ _ _.
Arguments Ret {A} _.
Arguments Self {A} _.
Arguments Emitted {A} _.

Definition Succeeded (o : Outcome (bool * string)) : bool := fst (Ret o).
Definition OutError (o : Outcome (bool * string)) : string := snd (Ret o).

(** ** ChessGameStateComponent.cpp *)

Definition DoubleQuote : string := String "034"%char EmptyString.
Definition Backslash : string := String "092"%char EmptyString.

Definition QuoteArg (In : string) : string :=
  let Out := ReplaceChar "034"%char (Backslash ++ DoubleQuote) In in
  DoubleQuote ++ Out ++ DoubleQuote.

Definition IsSquareValid (Square : string) : bool :=
  if negb (Nat.eqb (Len Square) 2) then false
  else
    match At Square 0, At Square 1 with
    | Some File, Some Rank =>
        Ascii.leb "a" File && Ascii.leb File "h" &&
        Ascii.leb "1" Rank && Ascii.leb Rank "8"
    | _, _ => false
    end.

Definition NormalizeSquare (Square : string) : string :=
  TrimStartAndEnd (ToLower Square).

Fixpoint BuildMovesCsvFrom (Index : nat) (Moves : list string) (Out : string) : string :=
  match Moves with
  | [] => Out
  | m :: rest =>
      BuildMovesCsvFrom (S Index) rest
        ((if Nat.ltb 0 Index then Out ++ "," else Out) ++ m)
  end.

Definition BuildMovesCsv (self : UChessGameStateComponent) : string :=
  BuildMovesCsvFrom 0 (MoveHistoryUci self) "".

(** The loops over a JSON array in [ParsePayloadJson]: the strings of the
    elements that are valid and give a string. *)
Fixpoint CollectStrings (Items : list (option FJsonValue)) (Out : list string) : list string :=
  match Items with
  | [] => Out
  | Item :: rest =>
      match Item with
      | Some v =>
          match TryGetString v with
          | Some Value => CollectStrings rest (TArray.Add Out Value)
          | None => CollectStrings rest Out
          end
      | None => CollectStrings rest Out
      end
  end.

(** [ParsePayloadJson] writes [OutState] field by field and [OutError] on
    failure; both are returned as they stand when the method returns. *)
Definition ParsePayloadJson (h : Host) (Json : string)
    (OutState : FChessStatePayload) (Err : string)
  : bool * FChessStatePayload * string :=
  match Deserialize h Json with
  | None => (false, OutState, "Failed to parse JSON payload.")
  | Some RootObj =>
      let missing := "Payload is missing one or more required fields." in
      match TryGetStringField RootObj "fen" with
      | None => (false, OutState, missing)
      | Some v1 =>
      let s1 := withFen v1 OutState in
      match TryGetStringField RootObj "turn" with
      | None => (false, s1, missing)
      | Some v2 =>
      let s2 := withTurn v2 s1 in
      match TryGetBoolField RootObj "is_game_over" with
      | None => (false, s2, missing)
      | Some v3 =>
      let s3 := withIsGameOver v3 s2 in
      match TryGetStringField RootObj "status_text" with
      | None => (false, s3, missing)
      | Some v4 =>
      let s4 := withStatusText v4 s3 in
      match TryGetStringField RootObj "score_text" with
      | None => (false, s4, missing)
      | Some v5 =>
      let s5 := withScoreText v5 s4 in
      let s6 :=
        match TryGetStringField RootObj "selected_square" with
        | Some v => withSelectedSquare v s5
        | None => s5
        end in
      let s7 :=
        match TryGetArrayField RootObj "legal_targets" with
        | Some LegalTargetsJson => withLegalTargets (CollectStrings LegalTargetsJson []) s6
        | None => s6
        end in
      let s8 :=
        match TryGetArrayField RootObj "legal_moves_uci" with
        | Some LegalMovesJson => withLegalMovesUci (CollectStrings LegalMovesJson []) s7
        | None => s7
        end in
      (true, s8, Err)
      end end end end end
  end.

(** The values [RefreshState] computes before it launches the exporter. *)
Definition PythonExeOf (self : UChessGameStateComponent) : string :=
  if IsEmpty (PythonExecutable self) then "python3" else PythonExecutable self.

Definition ScriptPathOf (h : Host) (self : UChessGameStateComponent) : string :=
  if negb (IsEmpty (ExportScriptPath self))
  then ConvertRelativePathToFull h (ExportScriptPath self)
  else ConvertRelativePathToFull h (Combine h (ProjectDir h) "../export_state.py").

Definition WorkingDirOf (h : Host) (self : UChessGameStateComponent) : string :=
  if IsEmpty (WorkingDirectory self)
  then ConvertRelativePathToFull h (Combine h (ProjectDir h) "../..")
  else WorkingDirectory self.

Definition OutputDirOf (h : Host) : string := Combine h (ProjectSavedDir h) "Chess".

Definition OutputPathOf (h : Host) : string := Combine h (OutputDirOf h) "state_payload.json".

Definition ParamsOf (h : Host) (self : UChessGameStateComponent) : string :=
  QuoteArg (ScriptPathOf h self) ++ " --fen " ++ QuoteArg (StartFen self)
  ++ " --moves " ++ QuoteArg (BuildMovesCsv self)
  ++ " --output " ++ QuoteArg (OutputPathOf h).

Definition RefreshState (h : Host) (self : UChessGameStateComponent)
  : Outcome (bool * string) :=
  let Err := "" in
  let PythonExe := PythonExeOf self in
  let ScriptPath := ScriptPathOf h self in
  if negb (FileExists h ScriptPath) then
    MkOutcome
      (false, "Export script not found at '" ++ ScriptPath
              ++ "'. Set ExportScriptPath to your unreal/export_state.py.")
      self []
  else
    let WorkingDir := WorkingDirOf h self in
    let OutputDir := OutputDirOf h in
    let OutputPath := OutputPathOf h in
    let Params := ParamsOf h self in
    let r := ExecProcess h PythonExe Params WorkingDir in
    let done := [EvMakeDirectory OutputDir; EvExecProcess PythonExe Params WorkingDir] in
    if negb (bExecOk r) || negb (ReturnCode r =? 0)%Z then
      MkOutcome
        (false, "Failed to run exporter (code=" ++ PrintInt (ReturnCode r)
                ++ "). StdErr: " ++ StdErr r ++ " StdOut: " ++ StdOut r)
        self done
    else
      match LoadFileToString h OutputPath with
      | None =>
          MkOutcome (false, "Failed to read output JSON: " ++ OutputPath) self done
      | Some Json =>
          match ParsePayloadJson h Json DefaultPayload Err with
          | (false, _, Err') => MkOutcome (false, Err') self done
          | (true, NextState, Err') =>
              MkOutcome (true, Err') (withCurrentState NextState self)
                        (done ++ [EvBroadcast])%list
          end
      end.

Definition ResetMatch (h : Host) (self : UChessGameStateComponent) : Outcome unit :=
  let self1 := withMoveHistoryUci [] self in
  let o := RefreshState h self1 in
  if negb (Succeeded o) && negb (IsEmpty (OutError o)) then
    MkOutcome tt (Self o)
              (Emitted o ++ [EvLogWarning ("ResetMatch failed: " ++ OutError o)])%list
  else
    MkOutcome tt (Self o) (Emitted o).

(** The loop of [SelectSquare]. *)
Fixpoint CollectTargets (Normalized : string) (Moves : list string)
    (NextTargets : list string) : list string :=
  match Moves with
  | [] => NextTargets
  | Uci :: rest =>
      if Nat.ltb (Len Uci) 4 then CollectTargets Normalized rest NextTargets
      else if Equals (Left 2 Uci) Normalized
           then CollectTargets Normalized rest (TArray.AddUnique NextTargets (Mid 2 2 Uci))
           else CollectTargets Normalized rest NextTargets
  end.

Definition SelectSquare (Square : string) (self : UChessGameStateComponent)
  : Outcome bool :=
  let Normalized := NormalizeSquare Square in
  if negb (IsSquareValid Normalized) then MkOutcome false self []
  else
    let NextTargets := CollectTargets Normalized (LegalMovesUci (CurrentState self)) [] in
    match NextTargets with
    | [] =>
        MkOutcome false
          (withCurrentState
             (withLegalTargets [] (withSelectedSquare "" (CurrentState self))) self)
          [EvBroadcast]
    | _ :: _ =>
        MkOutcome true
          (withCurrentState
             (withLegalTargets (TArray.Sort NextTargets)
                (withSelectedSquare Normalized (CurrentState self))) self)
          [EvBroadcast]
    end.

Definition IsQueenPromotion (Uci : string) : bool :=
  Nat.eqb (Len Uci) 5 &&
  match At Uci 4 with Some c => Ascii.eqb c "q" | None => false end.

(** The loop of [TryMoveSelectedTo], with its [break]. *)
Fixpoint FindSelectedMove (Prefix : string) (Moves : list string)
    (SelectedMove : string) : string :=
  match Moves with
  | [] => SelectedMove
  | Uci :: rest =>
      if StartsWith Uci Prefix then
        if IsQueenPromotion Uci then Uci
        else FindSelectedMove Prefix rest
               (if IsEmpty SelectedMove then Uci else SelectedMove)
      else FindSelectedMove Prefix rest SelectedMove
  end.

Definition TryMoveSelectedTo (h : Host) (TargetSquare : string)
    (self : UChessGameStateComponent) : Outcome (bool * string) :=
  let From := NormalizeSquare (SelectedSquare (CurrentState self)) in
  let To := NormalizeSquare TargetSquare in
  if negb (IsSquareValid From) then MkOutcome (false, "No selected square.") self []
  else if negb (IsSquareValid To) then MkOutcome (false, "Target square is invalid.") self []
  else
    let Prefix := From ++ To in
    let SelectedMove := FindSelectedMove Prefix (LegalMovesUci (CurrentState self)) "" in
    if IsEmpty SelectedMove then MkOutcome (false, "Illegal move: " ++ Prefix) self []
    else
      let self1 := withMoveHistoryUci (TArray.Add (MoveHistoryUci self) SelectedMove) self in
      let o := RefreshState h self1 in
      if negb (Succeeded o) then
        MkOutcome (false, OutError o)
                  (withMoveHistoryUci (TArray.Pop (MoveHistoryUci (Self o))) (Self o))
                  (Emitted o)
      else MkOutcome (true, OutError o) (Self o) (Emitted o).

(** ** Concrete machines, documents and boards, for evaluating the component *)

Fixpoint Lookup {A : Type} (k : string) (l : list (string * A)) : option A :=
  match l with
  | [] => None
  | (k', v) :: r => if String.eqb k k' then Some v else Lookup k r
  end.

Definition JsonStrings (l : list string) : list (option FJsonValue) :=
  map (fun s => Some (MkJsonValue (Some s))) l.

(** A document with the given string, boolean and string-array fields. *)
Definition JsonOf (strs : list (string * string)) (bools : list (string * bool))
    (arrs : list (string * list string)) : FJsonObject :=
  MkJsonObject (fun k => Lookup k strs) (fun k => Lookup k bools)
               (fun k => option_map JsonStrings (Lookup k arrs)).

(** A machine on which the script exists, the exporter exits with [rc] and
    the output file holds a document that reads as [doc]. *)
Definition HostOf (rc : Z) (doc : option FJsonObject) : Host :=
  MkHost (fun p => p) (fun a b => a ++ "/" ++ b) "/proj" "/proj/Saved"
         (fun _ => true)
         (fun _ _ _ => MkExec true rc "" "")
         (fun _ => Some "state_payload")
         (fun _ => doc).

Definition Required : list (string * string) :=
  [("fen", "8/8/8/8/8/8/8/8 w - - 0 1"); ("turn", "white");
   ("status_text", "White to move"); ("score_text", "0")].

(** The opening position with three of its legal moves, nothing selected. *)
Definition board_e2 : UChessGameStateComponent :=
  withCurrentState (withLegalMovesUci ["e2e4"; "e2e3"; "b1c3"] DefaultPayload) NewComponent.

(** A document that offers the promotions on e8 and selects e7 without
    listing targets. *)
Definition promotion_doc : FJsonObject :=
  JsonOf (("selected_square", "e7") :: Required) [("is_game_over", false)]
         [("legal_moves_uci", ["e7e8n"; "e7e8q"; "e7e8r"])].

(** A pawn on e7 is selected and may promote on e8. *)
Definition board_e7 : UChessGameStateComponent :=
  Self (RefreshState (HostOf 0 (Some promotion_doc)) NewComponent).

(** A document without selection. *)
Definition opening_doc : FJsonObject :=
  JsonOf Required [("is_game_over", false)]
         [("legal_moves_uci", ["e2e4"; "e2e3"; "b1c3"])].

(** The opening position as the exporter reports it, e2 selected by a
    call of [SelectSquare]. *)
Definition board_e2_selected : UChessGameStateComponent :=
  Self (SelectSquare "e2" (Self (RefreshState (HostOf 0 (Some opening_doc)) NewComponent))).

(** A document whose selection is e7 written with blanks and in upper
    case, and the component after one refresh with it. *)
Definition padded_doc : FJsonObject :=
  JsonOf (("selected_square", " E7 ") :: Required) [("is_game_over", false)]
         [("legal_moves_uci", ["e7e8n"; "e7e8q"; "e7e8r"])].

Definition board_padded_e7 : UChessGameStateComponent :=
  Self (RefreshState (HostOf 0 (Some padded_doc)) NewComponent).

(** * Vocabulary of the statements *)

(** ** Squares *)

Definition InRange (lo hi c : ascii) : Prop :=
  (N_of_ascii lo <= N_of_ascii c <= N_of_ascii hi)%N.

(** The square format in words: exactly two characters, file a to h, rank
    1 to 8. *)
Definition WellFormedSquare (s : string) : Prop :=
  exists File Rank, s = String File (String Rank EmptyString) /\
                    InRange "a" "h" File /\ InRange "1" "8" Rank.

(** ** Refreshing *)

(** The five required fields of the document. *)
Definition RequiredPresent (RootObj : FJsonObject) : Prop :=
  TryGetStringField RootObj "fen" <> None /\
  TryGetStringField RootObj "turn" <> None /\
  TryGetBoolField RootObj "is_game_over" <> None /\
  TryGetStringField RootObj "status_text" <> None /\
  TryGetStringField RootObj "score_text" <> None.

Definition OrElse {A : Type} (o : option A) (d : A) : A :=
  match o with Some v => v | None => d end.

(** The snapshot a document stands for: every field read from the
    document, an absent optional field empty. *)
Definition SnapshotOf (RootObj : FJsonObject) : FChessStatePayload :=
  MkPayload
    (OrElse (TryGetStringField RootObj "fen") "")
    (OrElse (TryGetStringField RootObj "turn") "")
    (OrElse (TryGetStringField RootObj "selected_square") "")
    (OrElse (option_map (fun l => CollectStrings l []) (TryGetArrayField RootObj "legal_targets")) [])
    (OrElse (TryGetBoolField RootObj "is_game_over") false)
    (OrElse (TryGetStringField RootObj "status_text") "")
    (OrElse (TryGetStringField RootObj "score_text") "")
    (OrElse (option_map (fun l => CollectStrings l []) (TryGetArrayField RootObj "legal_moves_uci")) []).

(** The exporter's run as [RefreshState] launches it. *)
Definition ExporterRun (h : Host) (self : UChessGameStateComponent) : ExecResult :=
  ExecProcess h (PythonExeOf self) (ParamsOf h self) (WorkingDirOf h self).

(** Everything that has to go right for a refresh. *)
Definition RefreshGoesThrough (h : Host) (self : UChessGameStateComponent)
    (RootObj : FJsonObject) : Prop :=
  FileExists h (ScriptPathOf h self) = true /\
  bExecOk (ExporterRun h self) = true /\
  ReturnCode (ExporterRun h self) = 0%Z /\
  (exists Json, LoadFileToString h (OutputPathOf h) = Some Json /\
                Deserialize h Json = Some RootObj) /\
  RequiredPresent RootObj.

Definition RefreshEffects (h : Host) (self : UChessGameStateComponent) : list Event :=
  [EvMakeDirectory (OutputDirOf h);
   EvExecProcess (PythonExeOf self) (ParamsOf h self) (WorkingDirOf h self)].

(** ** Arrays of strings: order and duplicates *)

(** No two elements are equal under the engine's [operator==]. *)
Definition DistinctIgnoringCase (l : list string) : Prop := NoDup (map ToLower l).

(** Strictly ascending under the engine's [operator<]. *)
Definition Ascending (l : list string) : Prop := Sorted (fun a b => Less a b = true) l.

(** ** Selecting *)

(** A legal move that leaves the square [s]: long enough to hold two
    squares, and its first two characters are [s]. *)
Definition MovesFrom (s Uci : string) : Prop := 4 <= Len Uci /\ Left 2 Uci = s.

Definition MovesFromb (s Uci : string) : bool :=
  negb (Nat.ltb (Len Uci) 4) && Equals (Left 2 Uci) s.

(** The targets [SelectSquare] computes for the normalised square [s]. *)
Definition TargetsOf (s : string) (Moves : list string) : list string :=
  TArray.Sort (CollectTargets s Moves []).

(** ** Moving *)

(** The first legal move beginning with the prefix, and the first such
    move that promotes to a queen. *)
Definition FirstMatch (Prefix : string) (Moves : list string) : option string :=
  find (fun Uci => StartsWith Uci Prefix) Moves.

Definition QueenMatch (Prefix : string) (Moves : list string) : option string :=
  find (fun Uci => StartsWith Uci Prefix && IsQueenPromotion Uci) Moves.

(** The promotion tie-break in words: the queen promotion when there is
    one, otherwise the first match. *)
Definition ChosenMove (Prefix : string) (Moves : list string) : option string :=
  match QueenMatch Prefix Moves with
  | Some q => Some q
  | None => FirstMatch Prefix Moves
  end.

(** What [TryMoveSelectedTo] does once the move [m] is chosen: append,
    refresh, take the move back when the refresh fails. *)
Definition CommitMove (h : Host) (self : UChessGameStateComponent) (m : string)
  : Outcome (bool * string) :=
  let o := RefreshState h (withMoveHistoryUci (MoveHistoryUci self ++ [m])%list self) in
  if Succeeded o
  then MkOutcome (true, OutError o) (Self o) (Emitted o)
  else MkOutcome (false, OutError o)
                 (withMoveHistoryUci (removelast (MoveHistoryUci (Self o))) (Self o))
                 (Emitted o).

Definition FromOf (self : UChessGameStateComponent) : string :=
  NormalizeSquare (SelectedSquare (CurrentState self)).

Definition PrefixOf (self : UChessGameStateComponent) (Target : string) : string :=
  FromOf self ++ NormalizeSquare Target.

(** The ways a refresh can go wrong: the script is not there, the exporter
    does not run or exits non-zero, the output cannot be read, it is not
    JSON, a required field is missing. *)
Definition RefreshFailureMode (h : Host) (self : UChessGameStateComponent) : Prop :=
  FileExists h (ScriptPathOf h self) = false \/
  bExecOk (ExporterRun h self) = false \/
  ReturnCode (ExporterRun h self) <> 0%Z \/
  LoadFileToString h (OutputPathOf h) = None \/
  (exists Json, LoadFileToString h (OutputPathOf h) = Some Json /\
                Deserialize h Json = None) \/
  (exists Json RootObj, LoadFileToString h (OutputPathOf h) = Some Json /\
                        Deserialize h Json = Some RootObj /\
                        ~ RequiredPresent RootObj).

(** ** The selection invariant *)

(** The targets are the second squares of the legal moves leaving the
    selected square: every target is one, and every one is among the
    targets (an array of squares holds a square when [TArray::Contains]
    says so). *)
Definition TargetsConsistent (st : FChessStatePayload) : Prop :=
  (forall t, In t (LegalTargets st) ->
             exists u, In u (LegalMovesUci st) /\
                       MovesFrom (SelectedSquare st) u /\ Mid 2 2 u = t) /\
  (forall u, In u (LegalMovesUci st) -> MovesFrom (SelectedSquare st) u ->
             TArray.Contains (LegalTargets st) (Mid 2 2 u) = true).

Definition SelectionInvariant (st : FChessStatePayload) : Prop :=
  (SelectedSquare st <> "" -> TargetsConsistent st) /\
  (LegalTargets st = [] -> SelectedSquare st = "").

Inductive Operation :=
| Refresh (h : Host)
| Reset (h : Host)
| Select (Square : string)
| TryMove (h : Host) (Target : string).

Definition Perform (self : UChessGameStateComponent) (op : Operation)
  : UChessGameStateComponent :=
  match op with
  | Refresh h => Self (RefreshState h self)
  | Reset h => Self (ResetMatch h self)
  | Select Square => Self (SelectSquare Square self)
  | TryMove h Target => Self (TryMoveSelectedTo h Target self)
  end.

Definition PerformAll (ops : list Operation) (self : UChessGameStateComponent)
  : UChessGameStateComponent :=
  fold_left Perform ops self.

(** Every document of the host that the parser accepts is consistent in
    itself. *)
Definition ConsistentDocuments (h : Host) : Prop :=
  forall Json RootObj,
    Deserialize h Json = Some RootObj -> RequiredPresent RootObj ->
    SelectionInvariant (SnapshotOf RootObj).

Definition Trusted (op : Operation) : Prop :=
  match op with
  | Refresh h | Reset h | TryMove h _ => ConsistentDocuments h
  | Select _ => True
  end.

(** * The rest of the component, and the board actor that drives it *)

(** ** ChessGameStateComponent.cpp, continued *)

Definition BeginPlay (h : Host) (self : UChessGameStateComponent) : Outcome unit :=
  let o := RefreshState h self in
  if negb (IsEmpty (OutError o)) then
    MkOutcome tt (Self o)
              (Emitted o ++ [EvLogWarning ("Chess state initialization warning: " ++ OutError o)])%list
  else MkOutcome tt (Self o) (Emitted o).

(** The pieces of a string between the occurrences of a separator, empty
    ones included. *)
Fixpoint SplitOn (sep : ascii) (s : string) : list string :=
  match s with
  | EmptyString => [EmptyString]
  | String c r =>
      if Ascii.eqb c sep then EmptyString :: SplitOn sep r
      else match SplitOn sep r with
           | p :: ps => String c p :: ps
           | [] => [String c EmptyString]
           end
  end.

Fixpoint Mentions (c : ascii) (s : string) : bool :=
  match s with
  | EmptyString => false
  | String d r => Ascii.eqb d c || Mentions c r
  end.

(** A move as the exporter can read it back from the list: not empty and
    without a comma. *)
Definition Listable (m : string) : Prop := m <> "" /\ Mentions "," m = false.

(** Undoing [QuoteArg]'s escaping: a backslash before a quote is dropped. *)
Fixpoint Unescape (s : string) : string :=
  match s with
  | EmptyString => EmptyString
  | String c r =>
      match r with
      | String q r' =>
          if Ascii.eqb c "092" && Ascii.eqb q "034"
          then String q (Unescape r')
          else String c (Unescape r)
      | EmptyString => String c EmptyString
      end
  end.

(** A move of the history: two well-formed squares, then anything. *)
Definition MoveShaped (m : string) : Prop :=
  exists From To rest, m = From ++ To ++ rest /\
                       WellFormedSquare From /\ WellFormedSquare To.

(** ** Vocabulary of the further properties *)

(** A comma before every move. *)
Fixpoint CommaEach (moves : list string) : string :=
  match moves with
  | [] => ""
  | m :: rest => "," ++ m ++ CommaEach rest
  end.

(** The escaping of [QuoteArg]. *)
Definition Escape (s : string) : string :=
  ReplaceChar "034" (Backslash ++ DoubleQuote) s.

Definition IsTryMove (op : Operation) : bool :=
  match op with TryMove _ _ => true | _ => false end.

Definition Settings (c : UChessGameStateComponent) : string * string * string * string :=
  (StartFen c, PythonExecutable c, ExportScriptPath c, WorkingDirectory c).

(** ** Floating-point numbers

    The actors compute positions in floating point.  That arithmetic is
    not evaluated here: the operations they use are the fields of an
    interface, and every statement below holds whatever they compute. *)
Record FloatOps := MkFloatOps {
  float : Type;
  fadd : float -> float -> float;
  fsub : float -> float -> float;
  fmul : float -> float -> float;
  fdiv : float -> float -> float;
  OfInt32 : Z -> float;           (* static_cast<float>(int32) *)
  FloorToInt : float -> Z;        (* FMath::FloorToInt *)
  (* a literal: [Decimal 35 1] is 3.5f, [Decimal 72 2] is 0.72f *)
  Decimal : Z -> nat -> float
}.

Module FVector.
Record t (fo : FloatOps) := Make { X : float fo; Y : float fo; Z : float fo }.
Arguments Make {fo} _ _ _.
Arguments X {fo} _.
Arguments Y {fo} _.
Arguments Z {fo} _.
End FVector.

(** [operator+] and [operator-] of vectors. *)
Definition VAdd {fo : FloatOps} (a b : FVector.t fo) : FVector.t fo :=
  FVector.Make (fadd fo (FVector.X a) (FVector.X b))
               (fadd fo (FVector.Y a) (FVector.Y b))
               (fadd fo (FVector.Z a) (FVector.Z b)).

Definition VSub {fo : FloatOps} (a b : FVector.t fo) : FVector.t fo :=
  FVector.Make (fsub fo (FVector.X a) (FVector.X b))
               (fsub fo (FVector.Y a) (FVector.Y b))
               (fsub fo (FVector.Z a) (FVector.Z b)).

(** A transform with zero rotation. *)
Record FTransform (fo : FloatOps) := MkTransform {
  Location : FVector.t fo;
  Scale3D : FVector.t fo
}.
Arguments MkTransform {fo} _ _.
Arguments Location {fo} _.
Arguments Scale3D {fo} _.

(** ** ChessBoardActor.h

    The state component the actor points to is kept inside the record:
    [None] is the null pointer.  Each instanced mesh component is the list
    of the transforms of its instances. *)
Record AChessBoardActor (fo : FloatOps) := MkBoard {
  GameStateComponent : option UChessGameStateComponent;
  LightTileInstances : list (FTransform fo);
  DarkTileInstances : list (FTransform fo);
  WhitePieceInstances : list (FTransform fo);
  BlackPieceInstances : list (FTransform fo);
  TileSize : float fo;
  TileThickness : float fo;
  PieceBaseSize : float fo;
  PieceBaseHeight : float fo;
  BoardOrigin : FVector.t fo
}.
Arguments MkBoard {fo} _ _ _ _ _ _ _ _ _ _.
Arguments GameStateComponent {fo} _.
Arguments LightTileInstances {fo} _.
Arguments DarkTileInstances {fo} _.
Arguments WhitePieceInstances {fo} _.
Arguments BlackPieceInstances {fo} _.
Arguments TileSize {fo} _.
Arguments TileThickness {fo} _.
Arguments PieceBaseSize {fo} _.
Arguments PieceBaseHeight {fo} _.
Arguments BoardOrigin {fo} _.

Definition withGameStateComponent {fo} (v : option UChessGameStateComponent)
    (b : AChessBoardActor fo) : AChessBoardActor fo :=
  MkBoard v (LightTileInstances b) (DarkTileInstances b) (WhitePieceInstances b)
          (BlackPieceInstances b) (TileSize b) (TileThickness b) (PieceBaseSize b)
          (PieceBaseHeight b) (BoardOrigin b).
Definition withTiles {fo} (l d : list (FTransform fo)) (b : AChessBoardActor fo)
  : AChessBoardActor fo :=
  MkBoard (GameStateComponent b) l d (WhitePieceInstances b)
          (BlackPieceInstances b) (TileSize b) (TileThickness b) (PieceBaseSize b)
          (PieceBaseHeight b) (BoardOrigin b).
Definition withPieces {fo} (w k : list (FTransform fo)) (b : AChessBoardActor fo)
  : AChessBoardActor fo :=
  MkBoard (GameStateComponent b) (LightTileInstances b) (DarkTileInstances b) w k
          (TileSize b) (TileThickness b) (PieceBaseSize b)
          (PieceBaseHeight b) (BoardOrigin b).

(** ** ChessBoardActor.cpp *)

Definition CharCode (c : ascii) : Z := Z.of_N (N_of_ascii c).

(** The character with the given code, as [static_cast<TCHAR>] gives it
    for the codes that occur here. *)
Definition CharOf (code : Z) : ascii := ascii_of_N (Z.to_N code).

(** The offset of a board coordinate from the board's centre line:
    [(static_cast<float>(Index) - 3.5f) * TileSize]. *)
Definition Offset {fo} (self : AChessBoardActor fo) (Index : Z) : float fo :=
  fmul fo (fsub fo (OfInt32 fo Index) (Decimal fo 35 1)) (TileSize self).

Definition FileIndexOf (Normalized : string) : Z :=
  match At Normalized 0 with Some c => CharCode c - CharCode "a" | None => 0 end.

Definition RankIndexOf (Normalized : string) : Z :=
  match At Normalized 1 with Some c => CharCode c - CharCode "1" | None => 0 end.

Definition SquareToWorld {fo} (self : AChessBoardActor fo) (Square : string)
    (HeightOffset : float fo) : FVector.t fo :=
  let Normalized := NormalizeSquare Square in
  if negb (IsSquareValid Normalized) then BoardOrigin self
  else
    let FileIndex := FileIndexOf Normalized in
    let RankIndex := RankIndexOf Normalized in
    let X := Offset self FileIndex in
    let Y := Offset self RankIndex in
    VAdd (BoardOrigin self) (FVector.Make X Y HeightOffset).

(** [FString::Printf(TEXT("%c%c"), File, Rank)] for the characters at the
    given indices. *)
Definition SquareAt (FileIndex RankIndex : Z) : string :=
  let File := CharOf (CharCode "a" + FileIndex) in
  let Rank := CharOf (CharCode "1" + RankIndex) in
  String File (String Rank EmptyString).

Definition ClickFileIndex {fo} (self : AChessBoardActor fo) (WorldLocation : FVector.t fo) : Z :=
  FloorToInt fo (fadd fo (fdiv fo (FVector.X (VSub WorldLocation (BoardOrigin self)))
                                  (TileSize self))
                         (Decimal fo 40 1)).

Definition ClickRankIndex {fo} (self : AChessBoardActor fo) (WorldLocation : FVector.t fo) : Z :=
  FloorToInt fo (fadd fo (fdiv fo (FVector.Y (VSub WorldLocation (BoardOrigin self)))
                                  (TileSize self))
                         (Decimal fo 40 1)).

(** Returns the flag and what [OutSquare] holds afterwards. *)
Definition WorldToSquare {fo} (self : AChessBoardActor fo) (WorldLocation : FVector.t fo)
    (OutSquare : string) : bool * string :=
  let FileIndex := ClickFileIndex self WorldLocation in
  let RankIndex := ClickRankIndex self WorldLocation in
  if (FileIndex <? 0)%Z || (7 <? FileIndex)%Z || (RankIndex <? 0)%Z || (7 <? RankIndex)%Z
  then (false, OutSquare)
  else (true, SquareAt FileIndex RankIndex).

(** The result of a call on the actor: return value with the text left in
    [OutError], the actor afterwards, the effects in order. *)
Record BoardOutcome (fo : FloatOps) := MkBoardOutcome {
  BRet : bool * string;
  BSelf : AChessBoardActor fo;
  BEmitted : list Event
}.
Arguments MkBoardOutcome {fo} _ _ _.
Arguments BRet {fo} _.
Arguments BSelf {fo} _.
Arguments BEmitted {fo} _.

Definition ClickWorldLocation {fo} (h : Host) (self : AChessBoardActor fo)
    (WorldLocation : FVector.t fo) : BoardOutcome fo :=
  match GameStateComponent self with
  | None =>
      MkBoardOutcome (false, "GameStateComponent is not set on ChessBoardActor.") self []
  | Some gsc =>
      match WorldToSquare self WorldLocation "" with
      | (false, _) => MkBoardOutcome (false, "Click is outside board bounds.") self []
      | (true, Square) =>
          let Normalized := NormalizeSquare Square in
          if negb (IsEmpty (SelectedSquare (CurrentState gsc))) &&
             TArray.Contains (LegalTargets (CurrentState gsc)) Normalized
          then
            let o := TryMoveSelectedTo h Normalized gsc in
            MkBoardOutcome (Ret o) (withGameStateComponent (Some (Self o)) self) (Emitted o)
          else
            let o := SelectSquare Normalized gsc in
            MkBoardOutcome
              (Ret o, if Ret o then ""
                      else "Square " ++ Normalized ++ " is not selectable for current turn.")
              (withGameStateComponent (Some (Self o)) self) (Emitted o)
      end
  end.

(** [FChar::IsDigit] and [FChar::IsUpper] on the ASCII range. *)
Definition IsDigit (c : ascii) : bool :=
  ((48 <=? N_of_ascii c) && (N_of_ascii c <=? 57))%N.

Definition IsUpper (c : ascii) : bool :=
  ((65 <=? N_of_ascii c) && (N_of_ascii c <=? 90))%N.

(** [Split(InS, &Left, &Right)] for a one-character [InS]: the parts before
    and after its first occurrence, [None] when it does not occur. *)
Fixpoint Split (InS : ascii) (s : string) : option (string * string) :=
  match s with
  | EmptyString => None
  | String c r =>
      if Ascii.eqb c InS then Some (EmptyString, r)
      else match Split InS r with
           | Some (LeftS, RightS) => Some (String c LeftS, RightS)
           | None => None
           end
  end.

(** [ParseIntoArray(OutArray, Delim, true)] for a one-character delimiter:
    the pieces between its occurrences, the empty ones culled. *)
Definition ParseIntoArray (s : string) (Delim : ascii) : list string :=
  filter (fun p => negb (IsEmpty p)) (SplitOn Delim s).

Definition PieceScaleForFenSymbol {fo : FloatOps} (Symbol : ascii) : float fo :=
  let c := ToLowerChar Symbol in
  if Ascii.eqb c "p" then Decimal fo 72 2
  else if Ascii.eqb c "n" || Ascii.eqb c "b" then Decimal fo 84 2
  else if Ascii.eqb c "r" then Decimal fo 92 2
  else if Ascii.eqb c "q" then Decimal fo 100 2
  else if Ascii.eqb c "k" then Decimal fo 108 2
  else Decimal fo 88 2.

(** The transform [RebuildPiecesFromFen] gives the piece [Symbol] on the
    square with indices [File] and [BoardRank]. *)
Definition PieceTransform {fo} (self : AChessBoardActor fo) (File BoardRank : Z)
    (Symbol : ascii) : FTransform fo :=
  let ScaleFactor := PieceScaleForFenSymbol Symbol in
  let PieceWidth := fmul fo (PieceBaseSize self) ScaleFactor in
  let PieceHeight := fmul fo (PieceBaseHeight self) ScaleFactor in
  let Location :=
    VAdd (BoardOrigin self)
         (FVector.Make (Offset self File) (Offset self BoardRank)
                       (fadd fo (TileThickness self) (fmul fo PieceHeight (Decimal fo 5 1)))) in
  let Scale :=
    FVector.Make (fdiv fo PieceWidth (Decimal fo 1000 1))
                 (fdiv fo PieceWidth (Decimal fo 1000 1))
                 (fdiv fo PieceHeight (Decimal fo 1000 1)) in
  MkTransform Location Scale.

(** The loop over the characters of one row, with its [continue] and
    [break]; [File] is an [int32] that a row of fewer than two hundred
    million digits cannot overflow. *)
Fixpoint PlaceRow {fo} (self : AChessBoardActor fo) (BoardRank : Z) (Row : string)
    (File : Z) (White Black : list (FTransform fo))
  : list (FTransform fo) * list (FTransform fo) :=
  match Row with
  | EmptyString => (White, Black)
  | String Symbol rest =>
      if IsDigit Symbol then
        PlaceRow self BoardRank rest (File + (CharCode Symbol - CharCode "0")) White Black
      else if (File <? 0)%Z || (7 <? File)%Z then (White, Black)
      else
        let bWhite := IsUpper Symbol in
        let T := PieceTransform self File BoardRank Symbol in
        if bWhite
        then PlaceRow self BoardRank rest (File + 1) (White ++ [T])%list Black
        else PlaceRow self BoardRank rest (File + 1) White (Black ++ [T])%list
  end.

Fixpoint PlaceRows {fo} (self : AChessBoardActor fo) (RankRows : list string)
    (FenRow : Z) (White Black : list (FTransform fo))
  : list (FTransform fo) * list (FTransform fo) :=
  match RankRows with
  | [] => (White, Black)
  | Row :: rest =>
      let BoardRank := (7 - FenRow)%Z in
      let '(White', Black') := PlaceRow self BoardRank Row 0 White Black in
      PlaceRows self rest (FenRow + 1) White' Black'
  end.

Definition RebuildPiecesFromFen {fo} (self : AChessBoardActor fo) (Fen : string)
  : AChessBoardActor fo :=
  let cleared := withPieces [] [] self in
  let BoardFen :=
    match Split " " Fen with
    | Some (LeftS, _) => TrimStartAndEnd LeftS
    | None => Fen
    end in
  if IsEmpty BoardFen then cleared
  else
    let RankRows := ParseIntoArray BoardFen "/" in
    if negb (Nat.eqb (length RankRows) 8) then cleared
    else
      let '(White, Black) := PlaceRows cleared RankRows 0 [] [] in
      withPieces White Black cleared.

Definition Indices : list Z := map Z.of_nat (seq 0 8).

Definition BuildBoardTiles {fo} (self : AChessBoardActor fo) : AChessBoardActor fo :=
  let TileScaleXY := fdiv fo (TileSize self) (Decimal fo 1000 1) in
  let TileScaleZ := fdiv fo (TileThickness self) (Decimal fo 1000 1) in
  let TileCenterZ := fmul fo (TileThickness self) (Decimal fo 5 1) in
  let '(Light, Dark) :=
    fold_left
      (fun acc Rank =>
         fold_left
           (fun '(Light, Dark) File =>
              let Location :=
                VAdd (BoardOrigin self)
                     (FVector.Make (Offset self File) (Offset self Rank) TileCenterZ) in
              let TileTransform :=
                MkTransform Location (FVector.Make TileScaleXY TileScaleXY TileScaleZ) in
              let bLight := ((File + Rank) mod 2 =? 0)%Z in
              if bLight then ((Light ++ [TileTransform])%list, Dark)
              else (Light, (Dark ++ [TileTransform])%list))
           Indices acc)
      Indices ([], []) in
  withTiles Light Dark self.

Definition RebuildVisuals {fo} (self : AChessBoardActor fo) : AChessBoardActor fo :=
  let built := BuildBoardTiles self in
  match GameStateComponent built with
  | Some gsc => RebuildPiecesFromFen built (Fen (CurrentState gsc))
  | None => withPieces [] [] built
  end.

Definition HandleStateChanged {fo} (self : AChessBoardActor fo) : AChessBoardActor fo :=
  match GameStateComponent self with
  | None => self
  | Some gsc => RebuildPiecesFromFen self (Fen (CurrentState gsc))
  end.

(** A board with the default measures on rationals, for evaluating. *)
Definition QFloat : FloatOps :=
  MkFloatOps QArith_base.Q QArith_base.Qplus QArith_base.Qminus QArith_base.Qmult
             QArith_base.Qdiv QArith_base.inject_Z Qround.Qfloor
             (fun m d => QArith_base.Qmake m (Pos.of_nat (10 ^ d))).

Definition QVec (x y z : Z) : FVector.t QFloat :=
  @FVector.Make QFloat (QArith_base.inject_Z x) (QArith_base.inject_Z y)
                (QArith_base.inject_Z z).

Definition DefaultBoard (gsc : option UChessGameStateComponent) : AChessBoardActor QFloat :=
  @MkBoard QFloat gsc [] [] [] [] (QArith_base.inject_Z 100) (QArith_base.inject_Z 10)
          (QArith_base.inject_Z 62) (QArith_base.inject_Z 86) (QVec 0 0 0).

(** ** What the rows of a position stand for *)

(** The pieces of one row, each with the file index it is put on: digits
    skip files, and the row ends at the first piece that would leave the
    board. *)
Fixpoint RowPieces (Row : string) (File : Z) : list (Z * ascii) :=
  match Row with
  | EmptyString => []
  | String Symbol rest =>
      if IsDigit Symbol then RowPieces rest (File + (CharCode Symbol - CharCode "0"))
      else if (File <? 0)%Z || (7 <? File)%Z then []
      else (File, Symbol) :: RowPieces rest (File + 1)
  end.

(** A piece: file index, rank index, symbol. *)
Definition Piece : Type := Z * Z * ascii.

Definition PieceFile (p : Piece) : Z := fst (fst p).
Definition PieceRank (p : Piece) : Z := snd (fst p).
Definition PieceSymbol (p : Piece) : ascii := snd p.
Definition PieceSquare (p : Piece) : Z * Z := fst p.
Definition IsWhitePiece (p : Piece) : bool := IsUpper (PieceSymbol p).
Definition IsBlackPiece (p : Piece) : bool := negb (IsUpper (PieceSymbol p)).

Fixpoint RowsPieces (RankRows : list string) (FenRow : Z) : list Piece :=
  match RankRows with
  | [] => []
  | Row :: rest =>
      (map (fun fc => (fst fc, (7 - FenRow)%Z, snd fc)) (RowPieces Row 0)
       ++ RowsPieces rest (FenRow + 1))%list
  end.

(** The part of the position text before its first space, trimmed; the
    whole text when it has no space. *)
Definition BoardPart (Fen : string) : string :=
  match Split " " Fen with
  | Some (LeftS, _) => TrimStartAndEnd LeftS
  | None => Fen
  end.

(** The pieces a position text puts on the board: those of its eight rows,
    none when it does not have exactly eight. *)
Definition FenPieces (Fen : string) : list Piece :=
  let RankRows := ParseIntoArray (BoardPart Fen) "/" in
  if Nat.eqb (length RankRows) 8 then RowsPieces RankRows 0 else [].

Definition TransformOf {fo} (self : AChessBoardActor fo) (p : Piece) : FTransform fo :=
  PieceTransform self (PieceFile p) (PieceRank p) (PieceSymbol p).

(** The height at which the centre of a piece stands. *)
Definition PieceCentreZ {fo} (self : AChessBoardActor fo) (Symbol : ascii) : float fo :=
  fadd fo (TileThickness self)
       (fmul fo (fmul fo (PieceBaseHeight self) (PieceScaleForFenSymbol Symbol))
             (Decimal fo 5 1)).

(** The squares in the order [BuildBoardTiles] visits them, as file and
    rank index. *)
Definition BoardSquares : list (Z * Z) :=
  flat_map (fun Rank => map (fun File => (File, Rank)) Indices) Indices.

Definition IsLightSquare (sq : Z * Z) : bool := ((fst sq + snd sq) mod 2 =? 0)%Z.

Definition TileAt {fo} (self : AChessBoardActor fo) (sq : Z * Z) : FTransform fo :=
  MkTransform
    (VAdd (BoardOrigin self)
          (FVector.Make (Offset self (fst sq)) (Offset self (snd sq))
                        (fmul fo (TileThickness self) (Decimal fo 5 1))))
    (FVector.Make (fdiv fo (TileSize self) (Decimal fo 1000 1))
                  (fdiv fo (TileSize self) (Decimal fo 1000 1))
                  (fdiv fo (TileThickness self) (Decimal fo 1000 1))).

(** The click falls on the board, and the square it falls on. *)
Definition OnBoard {fo} (self : AChessBoardActor fo) (W : FVector.t fo) : Prop :=
  (0 <= ClickFileIndex self W <= 7)%Z /\ (0 <= ClickRankIndex self W <= 7)%Z.

Definition ClickedSquare {fo} (self : AChessBoardActor fo) (W : FVector.t fo) : string :=
  SquareAt (ClickFileIndex self W) (ClickRankIndex self W).

(** A document that lists no legal moves. *)
Definition silent_doc : FJsonObject :=
  JsonOf Required [("is_game_over", true)] [].

(** The default board, pointing at the opening position, and the board
    after e2 was selected. *)
Definition opening_board : AChessBoardActor QFloat :=
  DefaultBoard (Some (Self (RefreshState (HostOf 0 (Some opening_doc)) NewComponent))).

Definition selected_board : AChessBoardActor QFloat :=
  DefaultBoard (Some board_e2_selected).

(** Points over the tiles e2 and e4 of the default board. *)
Definition over_e2 : FVector.t QFloat := QVec 50 (-250) 0.
Definition over_e4 : FVector.t QFloat := QVec 50 (-50) 0.

(** * Lemmas *)

(** ** Squares *)

Lemma ascii_leb_le a b : Ascii.leb a b = true <-> (N_of_ascii a <= N_of_ascii b)%N.
Proof.
  unfold Ascii.leb, Ascii.compare.
  destruct (N.compare_spec (N_of_ascii a) (N_of_ascii b));
    split; intros; try reflexivity; try discriminate; lia.
Qed.

Lemma IsSquareValid_iff s : IsSquareValid s = true <-> WellFormedSquare s.
Proof.
  unfold IsSquareValid, WellFormedSquare, InRange, At, Len.
  split.
  - destruct s as [|f [|r [|x t]]]; simpl; try discriminate.
    rewrite !andb_true_iff, !ascii_leb_le. intros [[[H1 H2] H3] H4].
    exists f, r. auto.
  - intros (f & r & -> & [H1 H2] & [H3 H4]). simpl.
    rewrite !andb_true_iff, !ascii_leb_le. auto.
Qed.

Lemma ToLowerChar_fixed c :
  (N_of_ascii c < 65 \/ 90 < N_of_ascii c)%N -> ToLowerChar c = c.
Proof.
  intros H. unfold ToLowerChar.
  destruct (65 <=? N_of_ascii c)%N eqn:E1; [|reflexivity].
  destruct (N_of_ascii c <=? 90)%N eqn:E2; [|reflexivity].
  apply N.leb_le in E1, E2. lia.
Qed.

Lemma IsWhitespace_false c : (32 < N_of_ascii c)%N -> IsWhitespace c = false.
Proof.
  intros H. unfold IsWhitespace.
  destruct (N.eqb_spec (N_of_ascii c) 32); [lia|].
  destruct (N.leb_spec (N_of_ascii c) 13); [lia|].
  now rewrite andb_false_r.
Qed.

(** A well-formed square is its own normal form. *)
Lemma NormalizeSquare_valid s : IsSquareValid s = true -> NormalizeSquare s = s.
Proof.
  rewrite IsSquareValid_iff. intros (f & r & -> & [H1 H2] & [H3 H4]).
  change (N_of_ascii "a") with 97%N in H1. change (N_of_ascii "h") with 104%N in H2.
  change (N_of_ascii "1") with 49%N in H3. change (N_of_ascii "8") with 56%N in H4.
  unfold NormalizeSquare, TrimStartAndEnd. cbn [ToLower].
  rewrite !ToLowerChar_fixed by lia.
  cbn [TrimEnd]. rewrite (IsWhitespace_false r) by lia.
  cbn [TrimStart]. now rewrite (IsWhitespace_false f) by lia.
Qed.

(** ** ParsePayloadJson and RefreshState *)

Lemma ParsePayloadJson_ok h Json Err st Err' :
  ParsePayloadJson h Json DefaultPayload Err = (true, st, Err') ->
  exists RootObj, Deserialize h Json = Some RootObj /\ RequiredPresent RootObj /\
                  st = SnapshotOf RootObj /\ Err' = Err.
Proof.
  unfold ParsePayloadJson, RequiredPresent, SnapshotOf.
  destruct (Deserialize h Json) as [o|]; [|discriminate].
  destruct (TryGetStringField o "fen") eqn:E1; [|discriminate].
  destruct (TryGetStringField o "turn") eqn:E2; [|discriminate].
  destruct (TryGetBoolField o "is_game_over") eqn:E3; [|discriminate].
  destruct (TryGetStringField o "status_text") eqn:E4; [|discriminate].
  destruct (TryGetStringField o "score_text") eqn:E5; [|discriminate].
  intros H. injection H as <- <-. exists o.
  rewrite E1, E2, E3, E4, E5.
  repeat split; try discriminate.
  destruct (TryGetStringField o "selected_square"),
           (TryGetArrayField o "legal_targets"),
           (TryGetArrayField o "legal_moves_uci"); reflexivity.
Qed.

Lemma ParsePayloadJson_complete h Json Err RootObj :
  Deserialize h Json = Some RootObj -> RequiredPresent RootObj ->
  ParsePayloadJson h Json DefaultPayload Err = (true, SnapshotOf RootObj, Err).
Proof.
  unfold ParsePayloadJson, RequiredPresent, SnapshotOf.
  intros -> (H1 & H2 & H3 & H4 & H5).
  destruct (TryGetStringField RootObj "fen"); [|congruence].
  destruct (TryGetStringField RootObj "turn"); [|congruence].
  destruct (TryGetBoolField RootObj "is_game_over"); [|congruence].
  destruct (TryGetStringField RootObj "status_text"); [|congruence].
  destruct (TryGetStringField RootObj "score_text"); [|congruence].
  destruct (TryGetStringField RootObj "selected_square"),
           (TryGetArrayField RootObj "legal_targets"),
           (TryGetArrayField RootObj "legal_moves_uci"); reflexivity.
Qed.

Lemma ParsePayloadJson_error h Json st0 Err st Err' :
  ParsePayloadJson h Json st0 Err = (false, st, Err') -> IsEmpty Err' = false.
Proof.
  unfold ParsePayloadJson.
  destruct (Deserialize h Json) as [o|]; [|intros H; injection H as <- <-; reflexivity].
  destruct (TryGetStringField o "fen"); [|intros H; injection H as <- <-; reflexivity].
  destruct (TryGetStringField o "turn"); [|intros H; injection H as <- <-; reflexivity].
  destruct (TryGetBoolField o "is_game_over"); [|intros H; injection H as <- <-; reflexivity].
  destruct (TryGetStringField o "status_text"); [|intros H; injection H as <- <-; reflexivity].
  destruct (TryGetStringField o "score_text"); [|intros H; injection H as <- <-; reflexivity].
  discriminate.
Qed.

(** A failed refresh: the object is untouched, nothing was broadcast, the
    error text is not empty. *)
Lemma RefreshState_failed h self :
  Succeeded (RefreshState h self) = false ->
  Self (RefreshState h self) = self /\
  existsb is_broadcast (Emitted (RefreshState h self)) = false /\
  IsEmpty (OutError (RefreshState h self)) = false.
Proof.
  unfold RefreshState, Succeeded, OutError.
  destruct (FileExists h (ScriptPathOf h self)); cbn [negb]; [|auto].
  destruct (negb (bExecOk _) || negb (ReturnCode _ =? 0)%Z); [auto|].
  destruct (LoadFileToString h (OutputPathOf h)) as [Json|]; [|auto].
  destruct (ParsePayloadJson h Json DefaultPayload "") as [[[] st] e] eqn:P;
    cbn; [discriminate|].
  intros _. apply ParsePayloadJson_error in P. auto.
Qed.

(** A successful refresh: the snapshot is the document's, one broadcast
    closes the call, the error text is empty. *)
Lemma RefreshState_succeeded h self :
  Succeeded (RefreshState h self) = true ->
  exists RootObj,
    RefreshGoesThrough h self RootObj /\
    Self (RefreshState h self) = withCurrentState (SnapshotOf RootObj) self /\
    Emitted (RefreshState h self) = (RefreshEffects h self ++ [EvBroadcast])%list /\
    OutError (RefreshState h self) = "".
Proof.
  unfold RefreshState, Succeeded, OutError, RefreshGoesThrough, ExporterRun.
  destruct (FileExists h (ScriptPathOf h self)); cbn [negb]; [|discriminate].
  destruct (bExecOk _) eqn:Eok; cbn [negb orb]; [|discriminate].
  destruct (ReturnCode _ =? 0)%Z eqn:Erc; cbn [negb]; [|discriminate].
  apply Z.eqb_eq in Erc.
  destruct (LoadFileToString h (OutputPathOf h)) as [Json|]; [|discriminate].
  destruct (ParsePayloadJson h Json DefaultPayload "") as [[[] st] e] eqn:P;
    cbn; [|discriminate].
  intros _. apply ParsePayloadJson_ok in P as (o & D & R & -> & ->).
  exists o. split; [|auto]. repeat split; eauto; apply R.
Qed.

Lemma RefreshState_goes_through h self RootObj :
  RefreshGoesThrough h self RootObj -> Succeeded (RefreshState h self) = true.
Proof.
  unfold RefreshGoesThrough, ExporterRun, RefreshState, Succeeded.
  intros (F & Eok & Erc & (Json & L & D) & R).
  rewrite F. cbn [negb]. rewrite Eok, Erc. cbn. rewrite L.
  now rewrite (ParsePayloadJson_complete _ _ _ _ D R).
Qed.

(** ** AddUnique and Sort *)

Lemma EqIgnoreCase_iff a b : EqIgnoreCase a b = true <-> ToLower a = ToLower b.
Proof. apply String.eqb_eq. Qed.

Lemma Contains_iff l x : TArray.Contains l x = true <-> In (ToLower x) (map ToLower l).
Proof.
  unfold TArray.Contains. rewrite existsb_exists, in_map_iff.
  split; intros (y & H1 & H2).
  - exists y. split; [now apply EqIgnoreCase_iff | assumption].
  - exists y. split; [assumption | now apply EqIgnoreCase_iff].
Qed.

Lemma Contains_false l x : TArray.Contains l x = false <-> ~ In (ToLower x) (map ToLower l).
Proof. rewrite <- Contains_iff. destruct (TArray.Contains l x); split; congruence. Qed.

Lemma AddUnique_distinct l x :
  DistinctIgnoringCase l -> DistinctIgnoringCase (TArray.AddUnique l x).
Proof.
  unfold DistinctIgnoringCase, TArray.AddUnique, TArray.Add. intros H.
  destruct (TArray.Contains l x) eqn:E; [assumption|].
  apply Contains_false in E.
  rewrite map_app. cbn [map].
  apply (Permutation_NoDup (Permutation_cons_append _ _)).
  now constructor.
Qed.

Lemma AddUnique_keeps l x y : In y l -> In y (TArray.AddUnique l x).
Proof.
  unfold TArray.AddUnique, TArray.Add. destruct (TArray.Contains l x); [auto|].
  intros H. apply in_or_app. now left.
Qed.

Lemma AddUnique_In l x y : In y (TArray.AddUnique l x) -> In y l \/ y = x.
Proof.
  unfold TArray.AddUnique, TArray.Add. destruct (TArray.Contains l x); [auto|].
  intros H. apply in_app_or in H as [H|[H|[]]]; auto.
Qed.

Lemma AddUnique_Contains l x : TArray.Contains (TArray.AddUnique l x) x = true.
Proof.
  unfold TArray.AddUnique, TArray.Add. destruct (TArray.Contains l x) eqn:E; [assumption|].
  apply Contains_iff. rewrite map_app. apply in_or_app. right. now left.
Qed.

Lemma Less_trichotomy a b :
  Less a b = false -> ToLower a <> ToLower b -> Less b a = true.
Proof.
  unfold Less, String.ltb. rewrite (String.compare_antisym (ToLower b)).
  destruct (String.compare (ToLower a) (ToLower b)) eqn:E; cbn; try congruence.
  apply String.compare_eq_iff in E. congruence.
Qed.

Lemma Insert_Permutation x l : Permutation (x :: l) (TArray.Insert x l).
Proof.
  induction l as [|y r IH]; cbn; [reflexivity|].
  destruct (Less y x); [|reflexivity].
  rewrite perm_swap. now constructor.
Qed.

Lemma Sort_Permutation l : Permutation l (TArray.Sort l).
Proof.
  induction l as [|x r IH]; cbn; [constructor|].
  rewrite <- Insert_Permutation. now constructor.
Qed.

Lemma Sort_In l x : In x (TArray.Sort l) <-> In x l.
Proof.
  split; apply Permutation_in; [symmetry|]; apply Sort_Permutation.
Qed.

Lemma Insert_HdRel y x l :
  Less y x = true -> HdRel (fun a b => Less a b = true) y l ->
  HdRel (fun a b => Less a b = true) y (TArray.Insert x l).
Proof.
  intros Hyx H. destruct l as [|z r]; cbn; [now constructor|].
  destruct (Less z x); constructor; [now inversion H | assumption].
Qed.

Lemma Insert_Ascending x l :
  Ascending l -> ~ In (ToLower x) (map ToLower l) -> Ascending (TArray.Insert x l).
Proof.
  unfold Ascending. induction l as [|y r IH]; cbn; intros S N.
  - repeat constructor.
  - inversion S as [|? ? S' Hd]; subst.
    destruct (Less y x) eqn:E.
    + constructor; [apply IH; tauto | now apply Insert_HdRel].
    + constructor; [assumption|]. constructor.
      apply Less_trichotomy; [assumption | intros Q; apply N; left; congruence].
Qed.

Lemma Sort_Ascending l : DistinctIgnoringCase l -> Ascending (TArray.Sort l).
Proof.
  unfold DistinctIgnoringCase. induction l as [|x r IH]; cbn; intros D.
  - constructor.
  - inversion D as [|? ? N D']; subst.
    apply Insert_Ascending; [auto|].
    intros Q. apply N. revert Q. apply Permutation_in, Permutation_map.
    symmetry. apply Sort_Permutation.
Qed.

Lemma Sort_distinct l : DistinctIgnoringCase l -> DistinctIgnoringCase (TArray.Sort l).
Proof.
  unfold DistinctIgnoringCase.
  apply Permutation_NoDup, Permutation_map, Sort_Permutation.
Qed.

Lemma Sort_nil l : TArray.Sort l = [] -> l = [].
Proof.
  intros H. apply Permutation_nil. rewrite <- H. symmetry. apply Sort_Permutation.
Qed.

Lemma compare_Lt_trans a b c :
  String.compare a b = Lt -> String.compare b c = Lt -> String.compare a c = Lt.
Proof.
  exact (@RelationClasses.StrictOrder_Transitive _ _ OrdersEx.String_as_OT.lt_strorder a b c).
Qed.

Lemma Less_trans a b c : Less a b = true -> Less b c = true -> Less a c = true.
Proof.
  unfold Less, String.ltb.
  destruct (String.compare (ToLower a) (ToLower b)) eqn:E1; try discriminate.
  destruct (String.compare (ToLower b) (ToLower c)) eqn:E2; try discriminate.
  intros _ _. now rewrite (compare_Lt_trans _ _ _ E1 E2).
Qed.

Lemma Less_irrefl a : Less a a = false.
Proof.
  unfold Less, String.ltb.
  destruct (String.compare (ToLower a) (ToLower a)) eqn:E; try reflexivity.
  pose proof (String.compare_antisym (ToLower a) (ToLower a)) as H.
  rewrite E in H. discriminate.
Qed.

Lemma Ascending_head_least a r x :
  Ascending (a :: r) -> In x r -> Less a x = true.
Proof.
  intros S. apply Sorted_StronglySorted in S.
  - inversion S as [|? ? _ F]; subst. rewrite Forall_forall in F. apply F.
  - intros p q s. apply Less_trans.
Qed.

Lemma Ascending_unique l1 l2 :
  Ascending l1 -> Ascending l2 -> Permutation l1 l2 -> l1 = l2.
Proof.
  revert l2. induction l1 as [|a r1 IH]; intros l2 S1 S2 P.
  - apply Permutation_nil in P. now subst.
  - destruct l2 as [|b r2]; [apply Permutation_sym, Permutation_nil in P; discriminate|].
    assert (a = b).
    { assert (Ia : In a (b :: r2)) by (apply (Permutation_in _ P); now left).
      assert (Ib : In b (a :: r1)) by (apply (Permutation_in _ (Permutation_sym P)); now left).
      destruct Ia as [Ia|Ia]; [now subst|].
      destruct Ib as [Ib|Ib]; [now subst|].
      pose proof (Ascending_head_least _ _ _ S2 Ia) as H1.
      pose proof (Ascending_head_least _ _ _ S1 Ib) as H2.
      pose proof (Less_trans _ _ _ H1 H2) as H3.
      rewrite Less_irrefl in H3. discriminate. }
    subst b. f_equal. apply IH.
    + now inversion S1.
    + now inversion S2.
    + now apply Permutation_cons_inv in P.
Qed.

Lemma Sort_unique l l' :
  DistinctIgnoringCase l -> Permutation l l' -> Ascending l' -> l' = TArray.Sort l.
Proof.
  intros D P S. apply Ascending_unique; [assumption | now apply Sort_Ascending |].
  rewrite <- P. apply Sort_Permutation.
Qed.

(** ** The loop of SelectSquare *)

Lemma MovesFromb_iff s u : MovesFromb s u = true <-> MovesFrom s u.
Proof.
  unfold MovesFromb, MovesFrom, Equals.
  rewrite andb_true_iff, negb_true_iff, Nat.ltb_ge, String.eqb_eq. tauto.
Qed.

Lemma CollectTargets_step s u rest acc :
  CollectTargets s (u :: rest) acc =
  CollectTargets s rest (if MovesFromb s u then TArray.AddUnique acc (Mid 2 2 u) else acc).
Proof.
  unfold MovesFromb. cbn [CollectTargets].
  destruct (Nat.ltb (Len u) 4); cbn [negb andb]; [reflexivity|].
  destruct (Equals (Left 2 u) s); reflexivity.
Qed.

(** The loop is: keep the moves leaving [s], take their second squares,
    add them one by one unless already there. *)
Lemma CollectTargets_fold s moves acc :
  CollectTargets s moves acc =
  fold_left TArray.AddUnique (map (Mid 2 2) (filter (MovesFromb s) moves)) acc.
Proof.
  revert acc. induction moves as [|u rest IH]; intros acc; [reflexivity|].
  rewrite CollectTargets_step, IH. cbn [filter].
  destruct (MovesFromb s u); reflexivity.
Qed.

Lemma CollectTargets_keeps s moves acc y :
  In y acc -> In y (CollectTargets s moves acc).
Proof.
  revert acc. induction moves as [|u rest IH]; intros acc H; [assumption|].
  rewrite CollectTargets_step. apply IH.
  destruct (MovesFromb s u); [now apply AddUnique_keeps | assumption].
Qed.

Lemma CollectTargets_In s moves acc t :
  In t (CollectTargets s moves acc) ->
  In t acc \/ exists u, In u moves /\ MovesFrom s u /\ Mid 2 2 u = t.
Proof.
  revert acc. induction moves as [|u rest IH]; intros acc H; [now left|].
  rewrite CollectTargets_step in H. apply IH in H as [H|(v & H1 & H2 & H3)].
  - destruct (MovesFromb s u) eqn:E; [|now left].
    apply AddUnique_In in H as [H| ->]; [now left|].
    right. exists u. rewrite <- MovesFromb_iff. cbn. auto.
  - right. exists v. cbn. auto.
Qed.

Lemma CollectTargets_Contains s moves acc x :
  TArray.Contains acc x = true -> TArray.Contains (CollectTargets s moves acc) x = true.
Proof.
  rewrite !Contains_iff, !in_map_iff. intros (y & H1 & H2).
  exists y. split; [assumption | now apply CollectTargets_keeps].
Qed.

Lemma CollectTargets_covers s moves acc u :
  In u moves -> MovesFrom s u ->
  TArray.Contains (CollectTargets s moves acc) (Mid 2 2 u) = true.
Proof.
  revert acc. induction moves as [|v rest IH]; intros acc [].
  - subst v. intros M. rewrite CollectTargets_step.
    apply MovesFromb_iff in M. rewrite M.
    apply CollectTargets_Contains, AddUnique_Contains.
  - intros M. rewrite CollectTargets_step. now apply IH.
Qed.

Lemma CollectTargets_distinct s moves acc :
  DistinctIgnoringCase acc -> DistinctIgnoringCase (CollectTargets s moves acc).
Proof.
  revert acc. induction moves as [|u rest IH]; intros acc H; [assumption|].
  rewrite CollectTargets_step. apply IH.
  destruct (MovesFromb s u); [now apply AddUnique_distinct | assumption].
Qed.

Lemma TargetsOf_sound s Moves t :
  In t (TargetsOf s Moves) -> exists u, In u Moves /\ MovesFrom s u /\ Mid 2 2 u = t.
Proof.
  unfold TargetsOf. rewrite Sort_In. intros H.
  apply CollectTargets_In in H as [[]|H]. exact H.
Qed.

Lemma TargetsOf_complete s Moves u :
  In u Moves -> MovesFrom s u -> TArray.Contains (TargetsOf s Moves) (Mid 2 2 u) = true.
Proof.
  intros H M. unfold TargetsOf.
  pose proof (CollectTargets_covers s Moves [] u H M) as C.
  rewrite Contains_iff in *. revert C.
  apply Permutation_in, Permutation_map, Sort_Permutation.
Qed.

Lemma TargetsOf_nil s Moves :
  TargetsOf s Moves = [] <-> CollectTargets s Moves [] = [].
Proof.
  unfold TargetsOf. split; [apply Sort_nil | now intros ->].
Qed.

Lemma SelectSquare_valid Square self :
  IsSquareValid (NormalizeSquare Square) = true ->
  SelectSquare Square self =
  let s := NormalizeSquare Square in
  let T := TargetsOf s (LegalMovesUci (CurrentState self)) in
  match T with
  | [] => MkOutcome false
            (withCurrentState (withLegalTargets [] (withSelectedSquare "" (CurrentState self))) self)
            [EvBroadcast]
  | _ :: _ => MkOutcome true
            (withCurrentState (withLegalTargets T (withSelectedSquare s (CurrentState self))) self)
            [EvBroadcast]
  end.
Proof.
  intros V. unfold SelectSquare. rewrite V. cbn [negb]. cbv zeta.
  destruct (TargetsOf _ _) eqn:E.
  - apply TargetsOf_nil in E. now rewrite E.
  - destruct (CollectTargets _ _ _) eqn:C.
    + apply TargetsOf_nil in C. congruence.
    + unfold TargetsOf in E. rewrite C in E. now rewrite E.
Qed.

Lemma SelectSquare_invalid Square self :
  IsSquareValid (NormalizeSquare Square) = false ->
  SelectSquare Square self = MkOutcome false self [].
Proof. intros V. unfold SelectSquare. now rewrite V. Qed.

(** ** The loop of TryMoveSelectedTo *)

Lemma StartsWith_not_empty u P : StartsWith u P = true -> IsEmpty u = false.
Proof.
  unfold StartsWith. destruct P as [|c P]; [discriminate|].
  destruct u; [discriminate | reflexivity].
Qed.

Lemma FindSelectedMove_spec P Moves acc :
  FindSelectedMove P Moves acc =
  match QueenMatch P Moves with
  | Some q => q
  | None => if IsEmpty acc then OrElse (FirstMatch P Moves) "" else acc
  end.
Proof.
  unfold QueenMatch, FirstMatch.
  revert acc. induction Moves as [|u rest IH]; intros acc.
  - cbn. now destruct acc.
  - cbn [FindSelectedMove find].
    destruct (StartsWith u P) eqn:S; cbn [andb]; [|apply IH].
    destruct (IsQueenPromotion u); [reflexivity|].
    rewrite IH. destruct (find _ rest); [reflexivity|].
    destruct (IsEmpty acc) eqn:E; [|now rewrite E].
    cbn [OrElse]. now rewrite (StartsWith_not_empty _ _ S).
Qed.

Lemma FindSelectedMove_chosen P Moves :
  FindSelectedMove P Moves "" = OrElse (ChosenMove P Moves) "".
Proof.
  rewrite FindSelectedMove_spec. unfold ChosenMove.
  now destruct (QueenMatch P Moves).
Qed.

Lemma ChosenMove_not_empty P Moves m : ChosenMove P Moves = Some m -> IsEmpty m = false.
Proof.
  unfold ChosenMove, QueenMatch, FirstMatch.
  destruct (find _ Moves) eqn:Q.
  - intros H. injection H as ->. apply find_some in Q as [_ Q].
    apply andb_true_iff in Q as [Q _]. eapply StartsWith_not_empty; eauto.
  - intros H. apply find_some in H as [_ H]. eapply StartsWith_not_empty; eauto.
Qed.

Lemma TryMoveSelectedTo_valid h Target self :
  IsSquareValid (NormalizeSquare (SelectedSquare (CurrentState self))) = true ->
  IsSquareValid (NormalizeSquare Target) = true ->
  TryMoveSelectedTo h Target self =
  let Prefix := NormalizeSquare (SelectedSquare (CurrentState self)) ++ NormalizeSquare Target in
  match ChosenMove Prefix (LegalMovesUci (CurrentState self)) with
  | Some m => CommitMove h self m
  | None => MkOutcome (false, "Illegal move: " ++ Prefix) self []
  end.
Proof.
  intros V1 V2. unfold TryMoveSelectedTo. rewrite V1, V2. cbn [negb]. cbv zeta.
  rewrite FindSelectedMove_chosen.
  destruct (ChosenMove _ _) as [m|] eqn:C; [|reflexivity].
  cbn [OrElse]. rewrite (ChosenMove_not_empty _ _ _ C).
  unfold CommitMove, TArray.Add, TArray.Pop.
  now destruct (Succeeded _).
Qed.

Lemma TryMoveSelectedTo_no_selection h Target self :
  IsSquareValid (NormalizeSquare (SelectedSquare (CurrentState self))) = false ->
  TryMoveSelectedTo h Target self = MkOutcome (false, "No selected square.") self [].
Proof. intros V. unfold TryMoveSelectedTo. now rewrite V. Qed.

Lemma TryMoveSelectedTo_bad_target h Target self :
  IsSquareValid (NormalizeSquare (SelectedSquare (CurrentState self))) = true ->
  IsSquareValid (NormalizeSquare Target) = false ->
  TryMoveSelectedTo h Target self = MkOutcome (false, "Target square is invalid.") self [].
Proof. intros V1 V2. unfold TryMoveSelectedTo. now rewrite V1, V2. Qed.

(** A failed refresh inside [CommitMove] gives the object back as it was. *)
Lemma CommitMove_failed h self m :
  Succeeded (RefreshState h (withMoveHistoryUci (MoveHistoryUci self ++ [m])%list self)) = false ->
  Succeeded (CommitMove h self m) = false /\
  Self (CommitMove h self m) = self /\
  OutError (CommitMove h self m) =
    OutError (RefreshState h (withMoveHistoryUci (MoveHistoryUci self ++ [m])%list self)).
Proof.
  intros F. unfold CommitMove. rewrite F.
  destruct (RefreshState_failed _ _ F) as (S & _ & _). rewrite S.
  cbn. rewrite removelast_last. now destruct self.
Qed.

Lemma CommitMove_succeeded h self m :
  Succeeded (RefreshState h (withMoveHistoryUci (MoveHistoryUci self ++ [m])%list self)) = true ->
  CommitMove h self m =
  RefreshState h (withMoveHistoryUci (MoveHistoryUci self ++ [m])%list self).
Proof.
  intros S. unfold CommitMove. rewrite S.
  destruct (RefreshState _ _) as [[b e] s ev]. cbn in *. now subst b.
Qed.

Lemma IsSquareValid_Len s : IsSquareValid s = true -> Len s = 2.
Proof.
  unfold IsSquareValid. destruct (Nat.eqb_spec (Len s) 2); [auto | discriminate].
Qed.

Lemma Len_append a b : Len (a ++ b) = Len a + Len b.
Proof. unfold Len. induction a; cbn; auto. Qed.

Lemma PrefixOf_Len self Target :
  IsSquareValid (FromOf self) = true -> IsSquareValid (NormalizeSquare Target) = true ->
  Len (PrefixOf self Target) = 4.
Proof.
  intros V1 V2. unfold PrefixOf.
  now rewrite Len_append, (IsSquareValid_Len _ V1), (IsSquareValid_Len _ V2).
Qed.

(** With a four-character prefix there is one queen promotion at most. *)
Lemma queen_promotion_unique P u :
  Len P = 4 -> StartsWith u P = true -> Len u = 5 -> At u 4 = Some "q"%char ->
  u = P ++ "q".
Proof.
  destruct P as [|a [|b [|c [|d [|? ?]]]]]; try discriminate. intros _.
  destruct u as [|a' [|b' [|c' [|d' [|e' [|? ?]]]]]]; try discriminate.
  unfold StartsWith, At. cbn.
  repeat (destruct (ascii_dec _ _); [subst|discriminate]).
  intros _ _ H. now injection H as ->.
Qed.

Lemma IsQueenPromotion_iff u :
  IsQueenPromotion u = true <-> Len u = 5 /\ At u 4 = Some "q"%char.
Proof.
  unfold IsQueenPromotion. rewrite andb_true_iff, Nat.eqb_eq.
  destruct (At u 4) as [c|].
  - rewrite Ascii.eqb_eq. split; intros [H1 H2]; split; congruence.
  - split; intros [_ H]; discriminate.
Qed.

Lemma find_all_false {A} (f : A -> bool) l :
  (forall x, In x l -> f x = false) -> find f l = None.
Proof.
  intros H. destruct (find f l) eqn:E; [|reflexivity].
  apply find_some in E as [E1 E2]. rewrite (H _ E1) in E2. discriminate.
Qed.

Lemma find_first {A} (f : A -> bool) before m after :
  (forall v, In v before -> f v = false) -> f m = true ->
  find f (before ++ m :: after) = Some m.
Proof.
  induction before as [|v r IH]; cbn; intros N M.
  - now rewrite M.
  - rewrite (N v) by auto. apply IH; auto.
Qed.

Lemma ChosenMove_queen P Moves q :
  Len P = 4 -> In q Moves -> StartsWith q P = true -> Len q = 5 ->
  At q 4 = Some "q"%char -> ChosenMove P Moves = Some q.
Proof.
  intros L I S L5 A. unfold ChosenMove, QueenMatch.
  destruct (find _ Moves) as [q'|] eqn:F.
  - apply find_some in F as [_ F]. apply andb_true_iff in F as [F1 F2].
    apply IsQueenPromotion_iff in F2 as [F2 F3].
    now rewrite (queen_promotion_unique P q), (queen_promotion_unique P q').
  - apply find_none with (x := q) in F; [|assumption].
    rewrite S in F. cbn in F.
    assert (IsQueenPromotion q = true) by now apply IsQueenPromotion_iff.
    congruence.
Qed.

Lemma ChosenMove_first P before m after :
  (forall q, In q (before ++ m :: after) -> StartsWith q P = true ->
             ~ (Len q = 5 /\ At q 4 = Some "q"%char)) ->
  (forall v, In v before -> StartsWith v P = false) -> StartsWith m P = true ->
  ChosenMove P (before ++ m :: after) = Some m.
Proof.
  intros NQ NB M. unfold ChosenMove, QueenMatch, FirstMatch.
  rewrite find_all_false.
  - now apply find_first.
  - intros x I. destruct (StartsWith x P) eqn:S; [|reflexivity]. cbn.
    destruct (IsQueenPromotion x) eqn:Q; [|reflexivity].
    apply IsQueenPromotion_iff in Q. now destruct (NQ x I S).
Qed.

Lemma ChosenMove_none P Moves :
  (forall u, In u Moves -> StartsWith u P = false) -> ChosenMove P Moves = None.
Proof.
  intros N. unfold ChosenMove, QueenMatch, FirstMatch.
  rewrite !find_all_false; auto.
  intros x I. now rewrite (N x I).
Qed.

(** [RefreshState] never touches the history nor the settings. *)
Lemma RefreshState_frame h self :
  MoveHistoryUci (Self (RefreshState h self)) = MoveHistoryUci self /\
  StartFen (Self (RefreshState h self)) = StartFen self /\
  PythonExecutable (Self (RefreshState h self)) = PythonExecutable self /\
  ExportScriptPath (Self (RefreshState h self)) = ExportScriptPath self /\
  WorkingDirectory (Self (RefreshState h self)) = WorkingDirectory self.
Proof.
  destruct (Succeeded (RefreshState h self)) eqn:S.
  - apply RefreshState_succeeded in S as (o & _ & -> & _). cbn. auto.
  - apply RefreshState_failed in S as (-> & _). auto.
Qed.

(** * The properties of the four operations *)

Lemma RequiredPresent_dec RootObj : {RequiredPresent RootObj} + {~ RequiredPresent RootObj}.
Proof.
  unfold RequiredPresent.
  destruct (TryGetStringField RootObj "fen"); [|right; intros (H & _); congruence].
  destruct (TryGetStringField RootObj "turn"); [|right; intros (_ & H & _); congruence].
  destruct (TryGetBoolField RootObj "is_game_over"); [|right; intros (_ & _ & H & _); congruence].
  destruct (TryGetStringField RootObj "status_text"); [|right; intros (_ & _ & _ & H & _); congruence].
  destruct (TryGetStringField RootObj "score_text"); [|right; intros (_ & _ & _ & _ & H); congruence].
  left. repeat split; discriminate.
Qed.

Lemma RefreshFailureMode_fails h self :
  RefreshFailureMode h self -> Succeeded (RefreshState h self) = false.
Proof.
  intros M. destruct (Succeeded (RefreshState h self)) eqn:S; [|reflexivity].
  apply RefreshState_succeeded in S as (o & (F & Eok & Erc & (Json & L & D) & R) & _).
  destruct M as [M|[M|[M|[M|[(J & M1 & M2)|(J & o' & M1 & M2 & M3)]]]]]; congruence.
Qed.

Lemma RefreshState_fails_by_mode h self :
  Succeeded (RefreshState h self) = false -> RefreshFailureMode h self.
Proof.
  intros S. unfold RefreshFailureMode.
  destruct (FileExists h (ScriptPathOf h self)) eqn:F; [|auto].
  destruct (bExecOk (ExporterRun h self)) eqn:Eok; [|auto].
  destruct (Z.eq_dec (ReturnCode (ExporterRun h self)) 0) as [Erc|Erc]; [|auto].
  destruct (LoadFileToString h (OutputPathOf h)) as [Json|] eqn:L; [|auto].
  destruct (Deserialize h Json) as [o|] eqn:D; [|eauto 8].
  destruct (RequiredPresent_dec o) as [R|R]; [|eauto 10].
  rewrite (RefreshState_goes_through h self o) in S; [discriminate|].
  unfold RefreshGoesThrough. eauto 8.
Qed.

(** C4.  A refresh is all or nothing.  It fails exactly in the failure
    modes (script missing, exporter not run or non-zero exit, output not
    readable, not JSON, a required field of fen, turn, is_game_over,
    status_text, score_text missing); a failed refresh leaves the whole
    object as it was, broadcasts nothing and returns a non-empty error
    text; a successful refresh replaces the snapshot by the one the
    document stands for, none of its fields coming from the old snapshot,
    and broadcasts once, last. *)
Theorem RefreshState_all_or_nothing (h : Host) (self : UChessGameStateComponent) :
  (RefreshFailureMode h self <-> Succeeded (RefreshState h self) = false) /\
  (Succeeded (RefreshState h self) = false ->
     Self (RefreshState h self) = self /\
     existsb is_broadcast (Emitted (RefreshState h self)) = false /\
     OutError (RefreshState h self) <> "") /\
  (Succeeded (RefreshState h self) = true ->
     exists RootObj,
       RefreshGoesThrough h self RootObj /\
       Self (RefreshState h self) = withCurrentState (SnapshotOf RootObj) self /\
       Emitted (RefreshState h self) = (RefreshEffects h self ++ [EvBroadcast])%list).
Proof.
  split; [split; [apply RefreshFailureMode_fails | apply RefreshState_fails_by_mode]|].
  split.
  - intros F. destruct (RefreshState_failed h self F) as (H1 & H2 & H3).
    repeat split; try assumption. intros E. now rewrite E in H3.
  - intros S. destruct (RefreshState_succeeded h self S) as (o & H1 & H2 & H3 & _).
    exists o. auto.
Qed.

(** C3.  For a well-formed square [s], [SelectSquare] takes the legal moves
    of at least four characters whose first two are [s], collects their
    second squares, dropping those already collected, and sorts the result:
    the list is strictly ascending, without duplicates, holds only second
    squares of such moves and holds each of them.  When the list is not
    empty the selection becomes [s] with these targets, observers are
    notified once and the call returns true; when it is empty the selection
    and the targets are cleared, observers are still notified once and the
    call returns false. *)
Theorem SelectSquare_computes_targets (s : string) (self : UChessGameStateComponent) :
  IsSquareValid s = true ->
  let Moves := LegalMovesUci (CurrentState self) in
  let T := TArray.Sort
             (fold_left TArray.AddUnique (map (Mid 2 2) (filter (MovesFromb s) Moves)) []) in
  Ascending T /\ DistinctIgnoringCase T /\
  (forall t, In t T -> exists u, In u Moves /\ MovesFrom s u /\ Mid 2 2 u = t) /\
  (forall u, In u Moves -> MovesFrom s u -> TArray.Contains T (Mid 2 2 u) = true) /\
  (T <> [] ->
     SelectSquare s self =
     MkOutcome true
       (withCurrentState (withLegalTargets T (withSelectedSquare s (CurrentState self))) self)
       [EvBroadcast]) /\
  (T = [] ->
     SelectSquare s self =
     MkOutcome false
       (withCurrentState (withLegalTargets [] (withSelectedSquare "" (CurrentState self))) self)
       [EvBroadcast]).
Proof.
  intros V Moves T.
  assert (E : T = TargetsOf s Moves).
  { unfold T, TargetsOf. now rewrite CollectTargets_fold. }
  assert (D : DistinctIgnoringCase (CollectTargets s Moves [])).
  { apply CollectTargets_distinct. constructor. }
  rewrite E.
  split; [now apply Sort_Ascending|].
  split; [now apply Sort_distinct|].
  split; [apply TargetsOf_sound|].
  split; [apply TargetsOf_complete|].
  pose proof (SelectSquare_valid s self) as S.
  rewrite (NormalizeSquare_valid s V) in S. specialize (S V). cbv zeta in S.
  fold Moves in S.
  split; intros H; rewrite S; destruct (TargetsOf s Moves); congruence.
Qed.

Lemma SelectSquare_computes_targets_witness :
  IsSquareValid "e2" = true /\
  SelectSquare "e2" board_e2 =
  MkOutcome true
    (withCurrentState
       (withLegalTargets ["e3"; "e4"] (withSelectedSquare "e2" (CurrentState board_e2)))
       board_e2)
    [EvBroadcast].
Proof.
  split; [reflexivity|].
  apply (SelectSquare_computes_targets "e2" board_e2); [reflexivity|].
  vm_compute. discriminate.
Defined.

(** Selecting a1, which no legal move leaves, clears the selection just
    made, notifies the observers and returns false. *)
Example SelectSquare_a1_deselects :
  SelectSquare "a1" (Self (SelectSquare "e2" board_e2)) =
  MkOutcome false board_e2 [EvBroadcast].
Proof. reflexivity. Qed.

(** Input is normalised before it is looked up. *)
Example SelectSquare_normalises :
  SelectSquare " E2 " board_e2 = SelectSquare "e2" board_e2.
Proof. reflexivity. Qed.

(** Entries too short to hold a second square give no target, and a second
    square that differs from a collected one by letter case only is not
    collected again. *)
Example CollectTargets_short_and_mixed_case :
  CollectTargets "e2" ["e2e4"; "e2E4"; "e2e"; "e2"] [] = ["e4"].
Proof. reflexivity. Qed.

(** C10.  [SelectSquare] changes at most the selection and the targets:
    the position, the turn, the game-over flag, both texts, the legal
    moves, the move history and the settings are as before, whatever the
    input. *)
Theorem SelectSquare_frame (Square : string) (self : UChessGameStateComponent) :
  let after := Self (SelectSquare Square self) in
  Fen (CurrentState after) = Fen (CurrentState self) /\
  Turn (CurrentState after) = Turn (CurrentState self) /\
  bIsGameOver (CurrentState after) = bIsGameOver (CurrentState self) /\
  StatusText (CurrentState after) = StatusText (CurrentState self) /\
  ScoreText (CurrentState after) = ScoreText (CurrentState self) /\
  LegalMovesUci (CurrentState after) = LegalMovesUci (CurrentState self) /\
  MoveHistoryUci after = MoveHistoryUci self /\
  after = withCurrentState
            (withLegalTargets (LegalTargets (CurrentState after))
               (withSelectedSquare (SelectedSquare (CurrentState after)) (CurrentState self)))
            self.
Proof.
  destruct (IsSquareValid (NormalizeSquare Square)) eqn:V.
  - rewrite (SelectSquare_valid _ _ V). cbv zeta.
    destruct (TargetsOf _ _); cbn; repeat split; reflexivity.
  - rewrite (SelectSquare_invalid _ _ V). cbn.
    destruct self as [[] ? ? ? ? ?]; cbn. repeat split; reflexivity.
Qed.

(** C7.  An input that after lowercasing and trimming is not a well-formed
    square is turned away before anything happens: [SelectSquare] returns
    false, changes nothing and notifies nobody; [TryMoveSelectedTo] with
    such a target returns false with an error text, changes nothing and
    launches no exporter (it has no effect at all). *)
Theorem malformed_square_rejected (Square : string) (h : Host)
    (self : UChessGameStateComponent) :
  ~ WellFormedSquare (NormalizeSquare Square) ->
  SelectSquare Square self = MkOutcome false self [] /\
  Succeeded (TryMoveSelectedTo h Square self) = false /\
  Self (TryMoveSelectedTo h Square self) = self /\
  Emitted (TryMoveSelectedTo h Square self) = [] /\
  OutError (TryMoveSelectedTo h Square self) <> "".
Proof.
  intros W. rewrite <- IsSquareValid_iff in W. apply not_true_is_false in W.
  split; [now apply SelectSquare_invalid|].
  destruct (IsSquareValid (FromOf self)) eqn:V.
  - rewrite (TryMoveSelectedTo_bad_target h Square self V W). cbn.
    repeat split; discriminate.
  - rewrite (TryMoveSelectedTo_no_selection h Square self V). cbn.
    repeat split; discriminate.
Qed.

Lemma not_well_formed_e9 : ~ WellFormedSquare (NormalizeSquare " E9 ").
Proof.
  rewrite <- IsSquareValid_iff. vm_compute. discriminate.
Qed.

Lemma malformed_square_rejected_witness :
  SelectSquare " E9 " board_e2 = MkOutcome false board_e2 [] /\
  Self (TryMoveSelectedTo (HostOf 0 None) " E9 " board_e2) = board_e2.
Proof.
  destruct (malformed_square_rejected " E9 " (HostOf 0 None) board_e2 not_well_formed_e9)
    as (H1 & _ & H2 & _).
  split; assumption.
Defined.

(** C8, as the code has it.  The stored selection is lowercased and
    trimmed before it is checked.  With no selection, or a selection that
    does not normalise to a well-formed square, [TryMoveSelectedTo] fails
    with the text "No selected square.", launches no exporter and changes
    neither the snapshot nor the move history. *)
Theorem TryMoveSelectedTo_without_selection (h : Host) (Target : string)
    (self : UChessGameStateComponent) :
  SelectedSquare (CurrentState self) = "" \/ ~ WellFormedSquare (FromOf self) ->
  TryMoveSelectedTo h Target self = MkOutcome (false, "No selected square.") self [].
Proof.
  intros H. apply TryMoveSelectedTo_no_selection.
  destruct H as [H|H].
  - rewrite H. reflexivity.
  - rewrite <- IsSquareValid_iff in H. now apply not_true_is_false in H.
Qed.

Lemma TryMoveSelectedTo_without_selection_witness :
  SelectedSquare (CurrentState board_e2) = "" /\
  TryMoveSelectedTo (HostOf 0 None) "e4" board_e2 =
  MkOutcome (false, "No selected square.") board_e2 [].
Proof.
  split; [reflexivity|].
  apply (TryMoveSelectedTo_without_selection (HostOf 0 None) "e4" board_e2).
  left. reflexivity.
Defined.

(** C8 as stated fails: one refresh stores the selection " E7 " as the
    document gives it; that text is not a well-formed square, yet the move
    to e8 is looked up for e7, the exporter is launched and the move is
    appended. *)
Lemma selection_not_valid_counterexample :
  SelectedSquare (CurrentState board_padded_e7) = " E7 " /\
  IsSquareValid (SelectedSquare (CurrentState board_padded_e7)) = false /\
  Succeeded (TryMoveSelectedTo (HostOf 0 (Some padded_doc)) "e8" board_padded_e7) = true /\
  MoveHistoryUci (Self (TryMoveSelectedTo (HostOf 0 (Some padded_doc)) "e8" board_padded_e7))
    = ["e7e8q"] /\
  Emitted (TryMoveSelectedTo (HostOf 0 (Some padded_doc)) "e8" board_padded_e7)
    = (RefreshEffects (HostOf 0 (Some padded_doc))
         (withMoveHistoryUci ["e7e8q"] board_padded_e7) ++ [EvBroadcast])%list.
Proof. repeat split; reflexivity. Qed.

(** C2.  With a selection and a target that both normalise to well-formed
    squares, [TryMoveSelectedTo] goes on with the legal move that begins
    with the four characters from+to and has length five and fifth
    character q whenever the list holds one, wherever it stands; when it
    holds none, with the first legal move in list order that begins with
    the prefix; and when no legal move begins with the prefix it fails
    with the text "Illegal move: " and the prefix, without any effect and
    without changing the object. *)
Theorem TryMoveSelectedTo_promotion_tie_break (h : Host) (Target : string)
    (self : UChessGameStateComponent) :
  IsSquareValid (FromOf self) = true ->
  IsSquareValid (NormalizeSquare Target) = true ->
  let Prefix := PrefixOf self Target in
  let Moves := LegalMovesUci (CurrentState self) in
  (forall q, In q Moves -> StartsWith q Prefix = true ->
             Len q = 5 -> At q 4 = Some "q"%char ->
             TryMoveSelectedTo h Target self = CommitMove h self q) /\
  ((forall q, In q Moves -> StartsWith q Prefix = true ->
              ~ (Len q = 5 /\ At q 4 = Some "q"%char)) ->
   forall before m after,
     Moves = (before ++ m :: after)%list ->
     (forall v, In v before -> StartsWith v Prefix = false) ->
     StartsWith m Prefix = true ->
     TryMoveSelectedTo h Target self = CommitMove h self m) /\
  ((forall u, In u Moves -> StartsWith u Prefix = false) ->
   TryMoveSelectedTo h Target self =
   MkOutcome (false, "Illegal move: " ++ Prefix) self []).
Proof.
  intros V1 V2 Prefix Moves.
  pose proof (TryMoveSelectedTo_valid h Target self V1 V2) as T. cbv zeta in T.
  fold (FromOf self) in T. fold (PrefixOf self Target) in T.
  fold Prefix in T. fold Moves in T.
  split; [|split].
  - intros q I S L A. rewrite T.
    rewrite (ChosenMove_queen Prefix Moves q); auto.
    now apply PrefixOf_Len.
  - intros NQ before m after E NB M. rewrite T.
    rewrite E in *. now rewrite ChosenMove_first.
  - intros N. rewrite T. now rewrite ChosenMove_none.
Qed.

Lemma TryMoveSelectedTo_promotion_tie_break_witness :
  TryMoveSelectedTo (HostOf 0 (Some promotion_doc)) "e8" board_e7 =
  CommitMove (HostOf 0 (Some promotion_doc)) board_e7 "e7e8q".
Proof.
  apply (TryMoveSelectedTo_promotion_tie_break (HostOf 0 (Some promotion_doc)) "e8" board_e7);
    try reflexivity.
  right. left. reflexivity.
Defined.

Example promotion_goes_to_the_queen :
  MoveHistoryUci (Self (TryMoveSelectedTo (HostOf 0 (Some promotion_doc)) "e8" board_e7))
  = ["e7e8q"].
Proof. reflexivity. Qed.

(** C5.  When a move was chosen and appended and the refresh that follows
    fails, the appended move is taken back: the move history has its
    former length and content (the whole object is as before the call),
    the call returns false, and the error text is the one of the failed
    refresh, which is not empty. *)
Theorem TryMoveSelectedTo_rollback (h : Host) (Target : string)
    (self : UChessGameStateComponent) (m : string) :
  IsSquareValid (FromOf self) = true ->
  IsSquareValid (NormalizeSquare Target) = true ->
  ChosenMove (PrefixOf self Target) (LegalMovesUci (CurrentState self)) = Some m ->
  Succeeded (RefreshState h (withMoveHistoryUci (MoveHistoryUci self ++ [m])%list self)) = false ->
  Succeeded (TryMoveSelectedTo h Target self) = false /\
  MoveHistoryUci (Self (TryMoveSelectedTo h Target self)) = MoveHistoryUci self /\
  Self (TryMoveSelectedTo h Target self) = self /\
  OutError (TryMoveSelectedTo h Target self) =
    OutError (RefreshState h (withMoveHistoryUci (MoveHistoryUci self ++ [m])%list self)) /\
  OutError (TryMoveSelectedTo h Target self) <> "".
Proof.
  intros V1 V2 C F.
  rewrite (TryMoveSelectedTo_valid h Target self V1 V2). cbv zeta.
  fold (FromOf self). fold (PrefixOf self Target). rewrite C.
  destruct (CommitMove_failed h self m F) as (H1 & H2 & H3).
  rewrite H1, H2, H3. repeat split.
  destruct (RefreshState_failed _ _ F) as (_ & _ & E).
  intros Q. now rewrite Q in E.
Qed.

Lemma TryMoveSelectedTo_rollback_witness :
  Self (TryMoveSelectedTo (HostOf 1 None) "e8" board_e7) = board_e7 /\
  OutError (TryMoveSelectedTo (HostOf 1 None) "e8" board_e7) <> "".
Proof.
  destruct (TryMoveSelectedTo_rollback (HostOf 1 None) "e8" board_e7 "e7e8q")
    as (_ & _ & H1 & _ & H2); try reflexivity.
  split; assumption.
Defined.

(** C9.  [ResetMatch] empties the move history and then refreshes: the
    refresh runs on the emptied history (its exporter gets an empty move
    list), the history is empty afterwards whether the refresh succeeds or
    fails, and a failed refresh ends the call normally with one warning
    line carrying the error text, the snapshot being as it was. *)
Theorem ResetMatch_clears_history (h : Host) (self : UChessGameStateComponent) :
  let cleared := withMoveHistoryUci [] self in
  let refreshed := RefreshState h cleared in
  MoveHistoryUci (Self (ResetMatch h self)) = [] /\
  Self (ResetMatch h self) = Self refreshed /\
  BuildMovesCsv cleared = "" /\
  (Succeeded refreshed = true -> Emitted (ResetMatch h self) = Emitted refreshed) /\
  (Succeeded refreshed = false ->
     Self (ResetMatch h self) = cleared /\
     Emitted (ResetMatch h self) =
       (Emitted refreshed ++ [EvLogWarning ("ResetMatch failed: " ++ OutError refreshed)])%list).
Proof.
  intros cleared refreshed.
  assert (S : Self (ResetMatch h self) = Self refreshed).
  { unfold ResetMatch. fold cleared. fold refreshed.
    now destruct (negb (Succeeded refreshed) && negb (IsEmpty (OutError refreshed))). }
  split.
  { rewrite S. unfold refreshed.
    destruct (RefreshState_frame h cleared) as (H & _). now rewrite H. }
  split; [exact S|]. split; [reflexivity|]. split.
  - intros T. unfold ResetMatch. fold cleared. fold refreshed. now rewrite T.
  - intros F. destruct (RefreshState_failed h cleared F) as (H1 & _ & H2).
    split; [now rewrite S|].
    unfold ResetMatch. fold cleared. fold refreshed. fold refreshed in H2.
    now rewrite F, H2.
Qed.

Lemma TryMoveSelectedTo_cases h Target self :
  (Succeeded (TryMoveSelectedTo h Target self) = false /\
   Self (TryMoveSelectedTo h Target self) = self) \/
  (exists m,
     Succeeded (RefreshState h (withMoveHistoryUci (MoveHistoryUci self ++ [m])%list self)) = true /\
     TryMoveSelectedTo h Target self =
     RefreshState h (withMoveHistoryUci (MoveHistoryUci self ++ [m])%list self)).
Proof.
  destruct (IsSquareValid (FromOf self)) eqn:V1.
  2:{ left. now rewrite (TryMoveSelectedTo_no_selection h Target self V1). }
  destruct (IsSquareValid (NormalizeSquare Target)) eqn:V2.
  2:{ left. now rewrite (TryMoveSelectedTo_bad_target h Target self V1 V2). }
  rewrite (TryMoveSelectedTo_valid h Target self V1 V2). cbv zeta.
  destruct (ChosenMove _ _) as [m|]; [|now left].
  destruct (Succeeded (RefreshState h (withMoveHistoryUci (MoveHistoryUci self ++ [m])%list self)))
    eqn:S.
  - right. exists m. split; [assumption | now apply CommitMove_succeeded].
  - left. destruct (CommitMove_failed h self m S) as (H1 & H2 & _). auto.
Qed.

(** C6, as the code has it.  After a [TryMoveSelectedTo] whose refresh
    succeeds, the selection is the one the accepted document carries in its
    selected_square field, and it is empty when the document has no such
    string field; the selection held before the move is never kept. *)
Theorem TryMoveSelectedTo_selection_from_document (h : Host) (Target : string)
    (self : UChessGameStateComponent) :
  Succeeded (TryMoveSelectedTo h Target self) = true ->
  exists Json RootObj,
    LoadFileToString h (OutputPathOf h) = Some Json /\
    Deserialize h Json = Some RootObj /\
    CurrentState (Self (TryMoveSelectedTo h Target self)) = SnapshotOf RootObj /\
    SelectedSquare (CurrentState (Self (TryMoveSelectedTo h Target self))) =
      OrElse (TryGetStringField RootObj "selected_square") "" /\
    (TryGetStringField RootObj "selected_square" = None ->
     SelectedSquare (CurrentState (Self (TryMoveSelectedTo h Target self))) = "").
Proof.
  intros S. destruct (TryMoveSelectedTo_cases h Target self) as [[F _]|(m & R & E)].
  - congruence.
  - rewrite E. apply RefreshState_succeeded in R as (o & G & -> & _).
    destruct G as (_ & _ & _ & (Json & L & D) & _).
    exists Json, o. cbn. repeat split; try assumption.
    now intros ->.
Qed.

Lemma TryMoveSelectedTo_selection_from_document_witness :
  exists Json RootObj,
    LoadFileToString (HostOf 0 (Some promotion_doc)) (OutputPathOf (HostOf 0 (Some promotion_doc)))
      = Some Json /\
    Deserialize (HostOf 0 (Some promotion_doc)) Json = Some RootObj /\
    SelectedSquare
      (CurrentState (Self (TryMoveSelectedTo (HostOf 0 (Some promotion_doc)) "e8" board_e7))) =
    OrElse (TryGetStringField RootObj "selected_square") "".
Proof.
  destruct (TryMoveSelectedTo_selection_from_document
              (HostOf 0 (Some promotion_doc)) "e8" board_e7 eq_refl)
    as (Json & RootObj & H1 & H2 & _ & H3 & _).
  exists Json, RootObj. repeat split; assumption.
Defined.

(** C6 as stated fails: after the first refresh e2 is selected by
    [SelectSquare], the move to e4 goes through, and the document of its
    refresh selects e7, so a square is selected although [SelectSquare] was
    not called on the new state. *)
Lemma selection_after_move_counterexample :
  Succeeded (TryMoveSelectedTo (HostOf 0 (Some promotion_doc)) "e4" board_e2_selected) = true /\
  SelectedSquare
    (CurrentState (Self (TryMoveSelectedTo (HostOf 0 (Some promotion_doc)) "e4" board_e2_selected)))
  = "e7".
Proof. split; reflexivity. Qed.

(** ** The selection invariant *)

Lemma RefreshState_invariant h self :
  ConsistentDocuments h -> SelectionInvariant (CurrentState self) ->
  SelectionInvariant (CurrentState (Self (RefreshState h self))).
Proof.
  intros C I. destruct (Succeeded (RefreshState h self)) eqn:S.
  - apply RefreshState_succeeded in S as (o & G & -> & _).
    destruct G as (_ & _ & _ & (Json & _ & D) & R). cbn. eauto.
  - apply RefreshState_failed in S as (-> & _). assumption.
Qed.

Lemma SelectSquare_invariant Square self :
  SelectionInvariant (CurrentState self) ->
  SelectionInvariant (CurrentState (Self (SelectSquare Square self))).
Proof.
  intros I. destruct (IsSquareValid (NormalizeSquare Square)) eqn:V.
  - rewrite (SelectSquare_valid _ _ V). cbv zeta.
    destruct (TargetsOf _ _) eqn:E; cbn.
    + split; [intros H; now destruct H | reflexivity].
    + split; [|discriminate]. intros _. rewrite <- E. split; cbn.
      * apply TargetsOf_sound.
      * apply TargetsOf_complete.
  - now rewrite (SelectSquare_invalid _ _ V).
Qed.

Lemma Perform_invariant self op :
  Trusted op -> SelectionInvariant (CurrentState self) ->
  SelectionInvariant (CurrentState (Perform self op)).
Proof.
  destruct op as [h|h|Square|h Target]; cbn [Trusted Perform]; intros T I.
  - now apply RefreshState_invariant.
  - assert (S : Self (ResetMatch h self) = Self (RefreshState h (withMoveHistoryUci [] self))).
    { unfold ResetMatch. now destruct (negb _ && negb _). }
    rewrite S. now apply RefreshState_invariant.
  - now apply SelectSquare_invariant.
  - destruct (TryMoveSelectedTo_cases h Target self) as [[_ ->]|(m & _ & ->)];
      [assumption|]. now apply RefreshState_invariant.
Qed.

(** C1, as the code has it.  Start from a component whose snapshot is the
    default one and perform any sequence of refresh, reset, select and
    move in which every document the parser accepts is consistent in
    itself (a document without selected_square is).  Then in the state
    reached: when a square is selected, the targets are exactly the second
    squares of the legal moves leaving it; and when there are no targets,
    no square is selected. *)
Theorem selection_invariant_reachable (ops : list Operation)
    (self : UChessGameStateComponent) :
  CurrentState self = DefaultPayload ->
  Forall Trusted ops ->
  SelectionInvariant (CurrentState (PerformAll ops self)).
Proof.
  intros D T.
  assert (I : SelectionInvariant (CurrentState self)).
  { rewrite D. split; [intros H; now destruct H | reflexivity]. }
  clear D. revert self I. unfold PerformAll.
  induction T as [|op ops Top _ IH]; intros self I; cbn [fold_left].
  - assumption.
  - apply IH. now apply Perform_invariant.
Qed.

Lemma opening_doc_consistent : ConsistentDocuments (HostOf 0 (Some opening_doc)).
Proof.
  intros Json RootObj D _. cbn in D. injection D as <-.
  split; [intros H; now destruct H | reflexivity].
Qed.

Lemma selection_invariant_reachable_witness :
  SelectionInvariant
    (CurrentState
       (PerformAll [Refresh (HostOf 0 (Some opening_doc)); Select "e2";
                    TryMove (HostOf 0 (Some opening_doc)) "e4"; Select "b1"]
                   NewComponent)).
Proof.
  apply (selection_invariant_reachable _ NewComponent); [reflexivity|].
  apply Forall_cons; [apply opening_doc_consistent|].
  apply Forall_cons; [exact I|].
  apply Forall_cons; [apply opening_doc_consistent|].
  apply Forall_cons; [exact I|].
  apply Forall_nil.
Defined.

(** C1 as stated fails: one refresh whose document selects e7 and lists
    no targets gives a state with a selection and no targets. *)
Lemma selection_invariant_counterexample :
  ~ SelectionInvariant
      (CurrentState (PerformAll [Refresh (HostOf 0 (Some promotion_doc))] NewComponent)).
Proof.
  intros [_ H]. specialize (H eq_refl). discriminate H.
Qed.

(** * Further properties *)

(** ** Strings *)

Lemma append_nil_r s : s ++ "" = s.
Proof. induction s; cbn; congruence. Qed.

Lemma append_assoc a b c : (a ++ b) ++ c = a ++ (b ++ c).
Proof. induction a; cbn; congruence. Qed.

Lemma append_inv_l a b c : a ++ b = a ++ c -> b = c.
Proof. induction a; cbn; intros H; [assumption|]. injection H. auto. Qed.

Lemma append_char_inv a b c : a ++ String c "" = b ++ String c "" -> a = b.
Proof.
  revert b. induction a as [|x a IH]; intros [|y b]; cbn; intros H.
  - reflexivity.
  - injection H as -> H. destruct b; discriminate.
  - injection H as -> H. destruct a; discriminate.
  - injection H as -> H. f_equal. auto.
Qed.

Lemma prefix_append P u : String.prefix P u = true -> exists rest, u = P ++ rest.
Proof.
  revert u. induction P as [|c P IH]; intros u H.
  - exists u. reflexivity.
  - destruct u as [|d u]; [discriminate|]. cbn in H.
    destruct (ascii_dec c d); [subst|discriminate].
    destruct (IH u H) as (rest & ->). exists rest. reflexivity.
Qed.

(** ** BuildMovesCsv *)

Lemma BuildMovesCsvFrom_later i moves out :
  BuildMovesCsvFrom (S i) moves out = out ++ CommaEach moves.
Proof.
  revert i out. induction moves as [|m rest IH]; intros i out; cbn [BuildMovesCsvFrom CommaEach].
  - now rewrite append_nil_r.
  - rewrite IH. cbn [Nat.ltb Nat.leb]. now rewrite !append_assoc.
Qed.

Lemma concat_comma m rest : String.concat "," (m :: rest) = m ++ CommaEach rest.
Proof.
  revert m. induction rest as [|m' rest IH]; intros m.
  - cbn. now rewrite append_nil_r.
  - cbn [String.concat CommaEach]. cbn [String.concat] in IH. now rewrite IH.
Qed.

Lemma BuildMovesCsv_concat self :
  BuildMovesCsv self = String.concat "," (MoveHistoryUci self).
Proof.
  unfold BuildMovesCsv. destruct (MoveHistoryUci self) as [|m rest]; [reflexivity|].
  rewrite concat_comma. cbn [BuildMovesCsvFrom Nat.ltb Nat.leb].
  now rewrite BuildMovesCsvFrom_later.
Qed.

Lemma SplitOn_not_nil sep s : SplitOn sep s <> [].
Proof.
  destruct s as [|c r]; cbn; [discriminate|].
  destruct (Ascii.eqb c sep); [discriminate|].
  destruct (SplitOn sep r); discriminate.
Qed.

Lemma SplitOn_append sep m t :
  Mentions sep m = false ->
  SplitOn sep (m ++ t) =
  match SplitOn sep t with
  | p :: ps => (m ++ p) :: ps
  | [] => [m]
  end.
Proof.
  induction m as [|c m IH]; cbn; intros H.
  - destruct (SplitOn sep t) eqn:E; [now apply SplitOn_not_nil in E | reflexivity].
  - apply orb_false_iff in H as [H1 H2]. rewrite H1, (IH H2).
    destruct (SplitOn sep t); reflexivity.
Qed.

Lemma SplitOn_CommaEach m rest :
  Mentions "," m = false -> Forall (fun x => Mentions "," x = false) rest ->
  SplitOn "," (m ++ CommaEach rest) = m :: rest.
Proof.
  intros Hm Hr. revert m Hm. induction Hr as [|x rest Hx _ IH]; intros m Hm.
  - cbn. rewrite SplitOn_append by assumption. cbn. now rewrite append_nil_r.
  - cbn [CommaEach]. rewrite SplitOn_append by assumption.
    change ("," ++ x ++ CommaEach rest) with (String "," (x ++ CommaEach rest)).
    cbn [SplitOn]. rewrite Ascii.eqb_refl. rewrite (IH x Hx).
    now rewrite append_nil_r.
Qed.

(** The comma-separated list can be read back. *)
Lemma SplitOn_BuildMovesCsv self :
  MoveHistoryUci self <> [] ->
  Forall (fun x => Mentions "," x = false) (MoveHistoryUci self) ->
  SplitOn "," (BuildMovesCsv self) = MoveHistoryUci self.
Proof.
  rewrite BuildMovesCsv_concat. destruct (MoveHistoryUci self) as [|m rest]; [congruence|].
  intros _ F. inversion F; subst. rewrite concat_comma. now apply SplitOn_CommaEach.
Qed.

Lemma BuildMovesCsv_empty_iff self :
  Forall (fun m => m <> "") (MoveHistoryUci self) ->
  (BuildMovesCsv self = "" <-> MoveHistoryUci self = []).
Proof.
  intros F. rewrite BuildMovesCsv_concat. split.
  - destruct (MoveHistoryUci self) as [|m rest]; [reflexivity|].
    rewrite concat_comma. inversion F; subst. destruct m; [congruence|discriminate].
  - now intros ->.
Qed.

(** X1.  The move list handed to the exporter is the history joined by
    commas, and it determines the history: two histories of listable
    moves (not empty, no comma) with the same list are equal. *)
Theorem BuildMovesCsv_joins_and_determines (a b : UChessGameStateComponent) :
  BuildMovesCsv a = String.concat "," (MoveHistoryUci a) /\
  (Forall Listable (MoveHistoryUci a) -> Forall Listable (MoveHistoryUci b) ->
   BuildMovesCsv a = BuildMovesCsv b -> MoveHistoryUci a = MoveHistoryUci b).
Proof.
  split; [apply BuildMovesCsv_concat|]. intros Fa Fb E.
  assert (Na : Forall (fun m => m <> "") (MoveHistoryUci a))
    by (eapply Forall_impl; [|exact Fa]; now intros m [H _]).
  assert (Nb : Forall (fun m => m <> "") (MoveHistoryUci b))
    by (eapply Forall_impl; [|exact Fb]; now intros m [H _]).
  assert (Ca : Forall (fun x => Mentions "," x = false) (MoveHistoryUci a))
    by (eapply Forall_impl; [|exact Fa]; now intros m [_ H]).
  assert (Cb : Forall (fun x => Mentions "," x = false) (MoveHistoryUci b))
    by (eapply Forall_impl; [|exact Fb]; now intros m [_ H]).
  destruct (MoveHistoryUci a) as [|ma ra] eqn:Ea.
  - symmetry. apply (BuildMovesCsv_empty_iff b Nb). rewrite <- E.
    apply (BuildMovesCsv_empty_iff a); [now rewrite Ea | assumption].
  - destruct (MoveHistoryUci b) as [|mb rb] eqn:Eb.
    + exfalso. assert (BuildMovesCsv a = "").
      { rewrite E. apply (BuildMovesCsv_empty_iff b); [now rewrite Eb | assumption]. }
      apply (BuildMovesCsv_empty_iff a) in H; [congruence | now rewrite Ea].
    + rewrite <- Ea, <- Eb.
      rewrite <- (SplitOn_BuildMovesCsv a), <- (SplitOn_BuildMovesCsv b); congruence.
Qed.

(** ** QuoteArg *)

Lemma Escape_head s : forall r, Escape s <> String "034" r.
Proof.
  unfold Escape. destruct s as [|c s]; cbn; intros r; [discriminate|].
  destruct (Ascii.eqb_spec c "034"%char); cbn; [discriminate|congruence].
Qed.

Lemma Escape_quote s :
  Escape (String "034" s) = String "092" (String "034" (Escape s)).
Proof. reflexivity. Qed.

Lemma Escape_other c s :
  c <> "034"%char -> Escape (String c s) = String c (Escape s).
Proof.
  intros N. unfold Escape. cbn [ReplaceChar].
  now destruct (Ascii.eqb_spec c "034"%char).
Qed.

Lemma Unescape_Escape s : Unescape (Escape s) = s.
Proof.
  induction s as [|c s IH]; [reflexivity|].
  destruct (Ascii.eqb_spec c "034"%char) as [->|N].
  - rewrite Escape_quote. cbn [Unescape]. cbn [Ascii.eqb Bool.eqb andb].
    now rewrite IH.
  - rewrite (Escape_other c s N). cbn [Unescape].
    destruct (Escape s) as [|q r'] eqn:E.
    + cbn in IH. now subst s.
    + destruct (Ascii.eqb c "092" && Ascii.eqb q "034") eqn:B.
      * apply andb_true_iff in B as [_ B]. apply Ascii.eqb_eq in B. subst q.
        now destruct (Escape_head s r').
      * now rewrite IH.
Qed.

(** X2.  [QuoteArg] wraps its argument in double quotes, puts a backslash
    before every double quote inside, and loses nothing: different
    arguments are quoted differently. *)
Theorem QuoteArg_injective (a b : string) :
  QuoteArg a = DoubleQuote ++ Escape a ++ DoubleQuote /\
  Unescape (Escape a) = a /\
  (QuoteArg a = QuoteArg b -> a = b).
Proof.
  split; [reflexivity|]. split; [apply Unescape_Escape|].
  unfold QuoteArg. fold (Escape a). fold (Escape b). intros H.
  apply append_inv_l in H. apply append_char_inv in H.
  rewrite <- (Unescape_Escape a), <- (Unescape_Escape b). now rewrite H.
Qed.

(** ** Error text and success *)

Lemma RefreshState_error_iff h self :
  Succeeded (RefreshState h self) = true <-> OutError (RefreshState h self) = "".
Proof.
  split.
  - intros S. now destruct (RefreshState_succeeded h self S) as (o & _ & _ & _ & E).
  - intros E. destruct (Succeeded (RefreshState h self)) eqn:S; [reflexivity|].
    destruct (RefreshState_failed h self S) as (_ & _ & N). rewrite E in N. discriminate.
Qed.

(** X3.  The text left in [OutError] is empty exactly when the call returned
    true, for [RefreshState] and for [TryMoveSelectedTo]. *)
Theorem OutError_empty_iff_success (h : Host) (Target : string)
    (self : UChessGameStateComponent) :
  (Succeeded (RefreshState h self) = true <-> OutError (RefreshState h self) = "") /\
  (Succeeded (TryMoveSelectedTo h Target self) = true <->
   OutError (TryMoveSelectedTo h Target self) = "").
Proof.
  split; [apply RefreshState_error_iff|].
  destruct (IsSquareValid (FromOf self)) eqn:V1.
  2:{ rewrite (TryMoveSelectedTo_no_selection h Target self V1). cbn. split; discriminate. }
  destruct (IsSquareValid (NormalizeSquare Target)) eqn:V2.
  2:{ rewrite (TryMoveSelectedTo_bad_target h Target self V1 V2). cbn. split; discriminate. }
  rewrite (TryMoveSelectedTo_valid h Target self V1 V2). cbv zeta.
  destruct (ChosenMove _ _) as [m|]; [|cbn; split; discriminate].
  unfold CommitMove.
  pose proof (RefreshState_error_iff h
                (withMoveHistoryUci (MoveHistoryUci self ++ [m])%list self)) as R.
  destruct (Succeeded (RefreshState h _)) eqn:S; cbn; [tauto|].
  split; [discriminate|]. intros E. apply R in E. discriminate.
Qed.

(** ** BeginPlay *)

(** X4.  [BeginPlay] is one refresh; it writes one warning line, carrying
    the error text, exactly when that refresh fails, and then the
    component is unchanged. *)
Theorem BeginPlay_refreshes_once (h : Host) (self : UChessGameStateComponent) :
  Self (BeginPlay h self) = Self (RefreshState h self) /\
  (Succeeded (RefreshState h self) = true ->
     Emitted (BeginPlay h self) = Emitted (RefreshState h self)) /\
  (Succeeded (RefreshState h self) = false ->
     Self (BeginPlay h self) = self /\
     Emitted (BeginPlay h self) =
       (Emitted (RefreshState h self)
        ++ [EvLogWarning ("Chess state initialization warning: "
                          ++ OutError (RefreshState h self))])%list).
Proof.
  unfold BeginPlay.
  split; [now destruct (negb _)|]. split.
  - intros S. apply RefreshState_error_iff in S. now rewrite S.
  - intros F. destruct (RefreshState_failed h self F) as (H1 & _ & H2).
    rewrite H2. cbn. auto.
Qed.

(** ** TryMoveSelectedTo as a whole *)

Lemma ChosenMove_legal P Moves m :
  ChosenMove P Moves = Some m -> In m Moves /\ StartsWith m P = true.
Proof.
  unfold ChosenMove, QueenMatch, FirstMatch.
  destruct (find _ Moves) eqn:Q.
  - intros H. injection H as ->. apply find_some in Q as [I Q].
    apply andb_true_iff in Q as [Q _]. auto.
  - intros H. now apply find_some in H.
Qed.

Lemma ChosenMove_None P Moves u :
  ChosenMove P Moves = None -> In u Moves -> StartsWith u P = false.
Proof.
  unfold ChosenMove, QueenMatch, FirstMatch.
  destruct (find _ Moves); [discriminate|].
  intros H I. exact (find_none _ _ H u I).
Qed.

Lemma TryMoveSelectedTo_outcome (h : Host) (Target : string)
    (self : UChessGameStateComponent) :
  (Succeeded (TryMoveSelectedTo h Target self) = false ->
     Self (TryMoveSelectedTo h Target self) = self /\
     existsb is_broadcast (Emitted (TryMoveSelectedTo h Target self)) = false) /\
  (Succeeded (TryMoveSelectedTo h Target self) = true ->
     exists m RootObj,
       IsSquareValid (FromOf self) = true /\
       IsSquareValid (NormalizeSquare Target) = true /\
       In m (LegalMovesUci (CurrentState self)) /\
       StartsWith m (PrefixOf self Target) = true /\
       Self (TryMoveSelectedTo h Target self) =
         withCurrentState (SnapshotOf RootObj)
           (withMoveHistoryUci (MoveHistoryUci self ++ [m])%list self) /\
       (exists before,
          Emitted (TryMoveSelectedTo h Target self) = (before ++ [EvBroadcast])%list) /\
       RefreshGoesThrough h (withMoveHistoryUci (MoveHistoryUci self ++ [m])%list self) RootObj).
Proof.
  destruct (IsSquareValid (FromOf self)) eqn:V1.
  2:{ rewrite (TryMoveSelectedTo_no_selection h Target self V1). cbn.
      split; [auto | discriminate]. }
  destruct (IsSquareValid (NormalizeSquare Target)) eqn:V2.
  2:{ rewrite (TryMoveSelectedTo_bad_target h Target self V1 V2). cbn.
      split; [auto | discriminate]. }
  rewrite (TryMoveSelectedTo_valid h Target self V1 V2). cbv zeta.
  fold (FromOf self). fold (PrefixOf self Target).
  destruct (ChosenMove _ _) as [m|] eqn:C; [|cbn; split; [auto | discriminate]].
  apply ChosenMove_legal in C as [I S].
  destruct (Succeeded (RefreshState h (withMoveHistoryUci (MoveHistoryUci self ++ [m])%list self)))
    eqn:R.
  - rewrite (CommitMove_succeeded h self m R). split; [congruence|]. intros _.
    destruct (RefreshState_succeeded _ _ R) as (o & G & H1 & H2 & _).
    exists m, o.
    split; [reflexivity|]. split; [reflexivity|]. split; [assumption|].
    split; [assumption|]. split; [assumption|]. split; [eauto | exact G].
  - destruct (CommitMove_failed h self m R) as (H1 & H2 & _). split; [|congruence].
    intros _. split; [assumption|].
    unfold CommitMove. rewrite R. cbn.
    now destruct (RefreshState_failed _ _ R) as (_ & H & _).
Qed.


(** ** What a run of operations keeps *)

Lemma StartsWith_MoveShaped m From To :
  IsSquareValid From = true -> IsSquareValid To = true ->
  StartsWith m (From ++ To) = true -> MoveShaped m.
Proof.
  intros V1 V2 S. unfold StartsWith in S. apply andb_true_iff in S as [_ S].
  apply prefix_append in S as (rest & ->).
  exists From, To, rest. rewrite append_assoc.
  repeat split; now apply IsSquareValid_iff.
Qed.

Lemma ResetMatch_Self h self :
  Self (ResetMatch h self) = Self (RefreshState h (withMoveHistoryUci [] self)).
Proof. unfold ResetMatch. now destruct (negb _ && negb _). Qed.

Lemma SelectSquare_shape Square self :
  exists sel tg,
    Self (SelectSquare Square self) =
    withCurrentState (withLegalTargets tg (withSelectedSquare sel (CurrentState self))) self.
Proof.
  destruct (IsSquareValid (NormalizeSquare Square)) eqn:V.
  - rewrite (SelectSquare_valid _ _ V). cbv zeta.
    destruct (TargetsOf _ _); cbn; eauto.
  - rewrite (SelectSquare_invalid _ _ V). cbn.
    exists (SelectedSquare (CurrentState self)), (LegalTargets (CurrentState self)).
    now destruct self as [[] ? ? ? ? ?].
Qed.

Lemma Perform_history self op :
  MoveHistoryUci (Perform self op) = MoveHistoryUci self \/
  MoveHistoryUci (Perform self op) = [] \/
  (IsTryMove op = true /\
   exists m, MoveShaped m /\ MoveHistoryUci (Perform self op) = (MoveHistoryUci self ++ [m])%list).
Proof.
  destruct op as [h|h|Square|h Target]; cbn [Perform IsTryMove].
  - left. now destruct (RefreshState_frame h self) as (H & _).
  - right. left. rewrite ResetMatch_Self.
    now destruct (RefreshState_frame h (withMoveHistoryUci [] self)) as (H & _).
  - left. destruct (SelectSquare_shape Square self) as (sel & tg & ->). reflexivity.
  - destruct (Succeeded (TryMoveSelectedTo h Target self)) eqn:S.
    + destruct (TryMoveSelectedTo_outcome h Target self) as (_ & T).
      destruct (T S) as (m & o & V1 & V2 & _ & P & E & _).
      right. right. split; [reflexivity|]. exists m. split.
      * now apply (StartsWith_MoveShaped m (FromOf self) (NormalizeSquare Target)).
      * now rewrite E.
    + destruct (TryMoveSelectedTo_outcome h Target self) as (F & _).
      destruct (F S) as (E & _). left. now rewrite E.
Qed.

(** X6.  The move history only ever holds moves that begin with two
    well-formed squares, and it is never longer than it was plus the
    number of moves tried: only [TryMoveSelectedTo] appends, one move at
    most, and only [ResetMatch] removes. *)
Theorem history_invariant (ops : list Operation) (self : UChessGameStateComponent) :
  Forall MoveShaped (MoveHistoryUci self) ->
  Forall MoveShaped (MoveHistoryUci (PerformAll ops self)) /\
  length (MoveHistoryUci (PerformAll ops self))
    <= length (MoveHistoryUci self) + length (filter IsTryMove ops).
Proof.
  unfold PerformAll. revert self.
  induction ops as [|op ops IH]; intros self F; cbn [fold_left filter].
  - split; [assumption | cbn; lia].
  - assert (F' : Forall MoveShaped (MoveHistoryUci (Perform self op)) /\
                 length (MoveHistoryUci (Perform self op))
                 <= length (MoveHistoryUci self) + (if IsTryMove op then 1 else 0)).
    { destruct (Perform_history self op) as [E|[E|(T & m & M & E)]]; rewrite E.
      - split; [assumption | lia].
      - split; [constructor | cbn; lia].
      - rewrite T. split.
        + apply Forall_app. split; [assumption | now constructor].
        + rewrite length_app. cbn. lia. }
    destruct F' as (F1 & F2). destruct (IH _ F1) as (H1 & H2).
    split; [assumption|].
    destruct (IsTryMove op); cbn [length] in *; lia.
Qed.

Lemma Perform_Settings self op : Settings (Perform self op) = Settings self.
Proof.
  unfold Settings. destruct op as [h|h|Square|h Target]; cbn [Perform].
  - destruct (RefreshState_frame h self) as (_ & -> & -> & -> & ->). reflexivity.
  - rewrite ResetMatch_Self.
    destruct (RefreshState_frame h (withMoveHistoryUci [] self)) as (_ & -> & -> & -> & ->).
    reflexivity.
  - destruct (SelectSquare_shape Square self) as (sel & tg & ->). reflexivity.
  - destruct (Succeeded (TryMoveSelectedTo h Target self)) eqn:S.
    + destruct (TryMoveSelectedTo_outcome h Target self) as (_ & T).
      destruct (T S) as (m & o & _ & _ & _ & _ & -> & _). reflexivity.
    + destruct (TryMoveSelectedTo_outcome h Target self) as (F & _).
      destruct (F S) as (-> & _). reflexivity.
Qed.

(** X7.  No operation of the component writes its settings: the start
    position, the interpreter, the script path and the working directory
    are after any run what they were before. *)
Theorem settings_never_change (ops : list Operation) (self : UChessGameStateComponent) :
  StartFen (PerformAll ops self) = StartFen self /\
  PythonExecutable (PerformAll ops self) = PythonExecutable self /\
  ExportScriptPath (PerformAll ops self) = ExportScriptPath self /\
  WorkingDirectory (PerformAll ops self) = WorkingDirectory self.
Proof.
  assert (H : Settings (PerformAll ops self) = Settings self).
  { unfold PerformAll. revert self. induction ops as [|op ops IH]; intros self; cbn.
    - reflexivity.
    - rewrite IH. apply Perform_Settings. }
  unfold Settings in H. injection H as -> -> -> ->. auto.
Qed.

(** ** Normalising twice *)

Lemma ToLowerChar_idem c : ToLowerChar (ToLowerChar c) = ToLowerChar c.
Proof. destruct c as [[] [] [] [] [] [] [] []]; reflexivity. Qed.

Lemma IsWhitespace_ToLowerChar c : IsWhitespace (ToLowerChar c) = IsWhitespace c.
Proof. destruct c as [[] [] [] [] [] [] [] []]; reflexivity. Qed.

Lemma ToLower_idem s : ToLower (ToLower s) = ToLower s.
Proof. induction s; cbn; [reflexivity|]. now rewrite ToLowerChar_idem, IHs. Qed.

Lemma ToLower_TrimStart s : ToLower (TrimStart s) = TrimStart (ToLower s).
Proof.
  induction s as [|c s IH]; cbn; [reflexivity|].
  rewrite IsWhitespace_ToLowerChar. now destruct (IsWhitespace c).
Qed.

Lemma ToLower_TrimEnd s : ToLower (TrimEnd s) = TrimEnd (ToLower s).
Proof.
  induction s as [|c s IH]; cbn; [reflexivity|].
  rewrite <- IH, IsWhitespace_ToLowerChar.
  destruct (TrimEnd s); cbn; [now destruct (IsWhitespace c) | reflexivity].
Qed.

Lemma TrimStart_idem s : TrimStart (TrimStart s) = TrimStart s.
Proof.
  induction s as [|c s IH]; cbn; [reflexivity|].
  destruct (IsWhitespace c) eqn:E; [assumption|]. cbn. now rewrite E.
Qed.

Lemma TrimEnd_idem s : TrimEnd (TrimEnd s) = TrimEnd s.
Proof.
  induction s as [|c s IH]; cbn; [reflexivity|].
  destruct (TrimEnd s) as [|d r] eqn:E.
  - destruct (IsWhitespace c) eqn:W; cbn; [reflexivity | now rewrite W].
  - cbn [TrimEnd]. cbn [TrimEnd] in IH. now rewrite IH.
Qed.

Lemma TrimEnd_TrimStart s : TrimEnd s = s -> TrimEnd (TrimStart s) = TrimStart s.
Proof.
  induction s as [|c s IH]; cbn; [reflexivity|].
  destruct (IsWhitespace c) eqn:W; intros H.
  - apply IH. destruct (TrimEnd s) as [|d r]; [discriminate | now injection H].
  - cbn. now rewrite W.
Qed.

Lemma NormalizeSquare_idem s : NormalizeSquare (NormalizeSquare s) = NormalizeSquare s.
Proof.
  unfold NormalizeSquare, TrimStartAndEnd.
  rewrite ToLower_TrimStart, ToLower_TrimEnd, ToLower_idem.
  rewrite (TrimEnd_TrimStart (TrimEnd (ToLower s))) by apply TrimEnd_idem.
  apply TrimStart_idem.
Qed.

(** X8.  Normalising is idempotent, so a caller that has normalised a
    square already (as the board actor does) gets the same result from
    [SelectSquare] and [TryMoveSelectedTo] as with the raw input. *)
Theorem normalising_twice_is_harmless (h : Host) (Square : string)
    (self : UChessGameStateComponent) :
  NormalizeSquare (NormalizeSquare Square) = NormalizeSquare Square /\
  SelectSquare (NormalizeSquare Square) self = SelectSquare Square self /\
  TryMoveSelectedTo h (NormalizeSquare Square) self = TryMoveSelectedTo h Square self.
Proof.
  split; [apply NormalizeSquare_idem|]. split.
  - unfold SelectSquare. now rewrite NormalizeSquare_idem.
  - unfold TryMoveSelectedTo. now rewrite NormalizeSquare_idem.
Qed.

(** ** Selecting again, and moving to a target *)

(** X9.  A selection has no memory: selecting a well-formed square gives the
    same result, object and effects after any earlier [SelectSquare] as
    without it. *)
Theorem SelectSquare_overrides (First Second : string) (self : UChessGameStateComponent) :
  IsSquareValid (NormalizeSquare Second) = true ->
  SelectSquare Second (Self (SelectSquare First self)) = SelectSquare Second self.
Proof.
  intros V. rewrite !(SelectSquare_valid Second _ V). cbv zeta.
  destruct (SelectSquare_shape First self) as (sel & tg & ->).
  unfold withCurrentState, withLegalTargets, withSelectedSquare. cbn.
  reflexivity.
Qed.

Lemma MovesFrom_StartsWith s t u :
  MovesFrom s u -> Mid 2 2 u = t -> StartsWith u (s ++ t) = true.
Proof.
  intros [L E] M. subst s t.
  destruct u as [|a [|b [|c [|d r]]]]; cbn in L; try lia.
  unfold StartsWith. cbn.
  repeat (destruct (ascii_dec _ _); [|congruence]).
  now destruct r.
Qed.

Lemma target_playable (h : Host) (Square Target : string)
    (self : UChessGameStateComponent) :
  Ret (SelectSquare Square self) = true ->
  In Target (LegalTargets (CurrentState (Self (SelectSquare Square self)))) ->
  IsSquareValid Target = true ->
  exists m,
    In m (LegalMovesUci (CurrentState self)) /\
    StartsWith m (NormalizeSquare Square ++ Target) = true /\
    TryMoveSelectedTo h Target (Self (SelectSquare Square self)) =
    CommitMove h (Self (SelectSquare Square self)) m.
Proof.
  intros R I VT.
  destruct (IsSquareValid (NormalizeSquare Square)) eqn:V.
  2:{ rewrite (SelectSquare_invalid _ _ V) in R. discriminate. }
  revert R I. rewrite (SelectSquare_valid _ _ V). cbv zeta.
  destruct (TargetsOf _ _) as [|t0 ts] eqn:E; cbn [Ret Self]; [discriminate|].
  intros _ I. change (In Target (t0 :: ts)) in I. rewrite <- E in I.
  apply TargetsOf_sound in I as (u & Iu & M & Mt).
  remember (withCurrentState _ self) as after eqn:A.
  assert (Sel : SelectedSquare (CurrentState after) = NormalizeSquare Square)
    by now subst after.
  assert (Mov : LegalMovesUci (CurrentState after) = LegalMovesUci (CurrentState self))
    by now subst after.
  assert (V1 : IsSquareValid (FromOf after) = true).
  { unfold FromOf. rewrite Sel, NormalizeSquare_idem. exact V. }
  assert (V2 : IsSquareValid (NormalizeSquare Target) = true)
    by now rewrite (NormalizeSquare_valid _ VT).
  rewrite (TryMoveSelectedTo_valid h Target after V1 V2). cbv zeta.
  rewrite Sel, NormalizeSquare_idem, (NormalizeSquare_valid _ VT), Mov.
  destruct (ChosenMove _ _) as [m|] eqn:C.
  - apply ChosenMove_legal in C as [Im Sm]. exists m. auto.
  - apply ChosenMove_None with (u := u) in C; [|assumption].
    rewrite (MovesFrom_StartsWith _ _ _ M Mt) in C. discriminate.
Qed.

(** X10.  Every target offered after a successful [SelectSquare] can be
    played: [TryMoveSelectedTo] on a target of the list that is a
    well-formed square never stops at "No selected square.",
    "Target square is invalid." or "Illegal move"; it goes on with a legal
    move that begins with the selected square and the target. *)
Theorem offered_target_is_playable (h : Host) (Square Target : string)
    (self : UChessGameStateComponent) :
  Ret (SelectSquare Square self) = true ->
  In Target (LegalTargets (CurrentState (Self (SelectSquare Square self)))) ->
  IsSquareValid Target = true ->
  exists m,
    In m (LegalMovesUci (CurrentState self)) /\
    StartsWith m (NormalizeSquare Square ++ Target) = true /\
    TryMoveSelectedTo h Target (Self (SelectSquare Square self)) =
    CommitMove h (Self (SelectSquare Square self)) m.
Proof.
  intros R I V.
  destruct (target_playable h Square Target self R I V) as (m & Im & Sm & E).
  exists m. split; [exact Im|]. split; [exact Sm | exact E].
Qed.

(** ** A document without legal moves *)

Lemma CollectTargets_nil s acc : CollectTargets s [] acc = acc.
Proof. reflexivity. Qed.

(** X11.  When the accepted document has no legal_moves_uci array, the new
    snapshot has no legal moves, and then no square can be selected and
    no move can be tried: [SelectSquare] returns false for every input and
    [TryMoveSelectedTo] returns false without any effect. *)
Theorem no_legal_moves_no_interaction (h : Host) (self : UChessGameStateComponent)
    (RootObj : FJsonObject) :
  RefreshGoesThrough h self RootObj ->
  TryGetArrayField RootObj "legal_moves_uci" = None ->
  LegalMovesUci (CurrentState (Self (RefreshState h self))) = [] /\
  (forall Square, Ret (SelectSquare Square (Self (RefreshState h self))) = false) /\
  (forall h' Target,
     Succeeded (TryMoveSelectedTo h' Target (Self (RefreshState h self))) = false /\
     Emitted (TryMoveSelectedTo h' Target (Self (RefreshState h self))) = []).
Proof.
  intros G A.
  pose proof (RefreshState_goes_through h self RootObj G) as S.
  destruct (RefreshState_succeeded h self S) as (o & G' & E & _).
  assert (o = RootObj).
  { destruct G as (_ & _ & _ & (J & L & D) & _).
    destruct G' as (_ & _ & _ & (J' & L' & D') & _). congruence. }
  subst o. rewrite E.
  assert (M : LegalMovesUci (CurrentState (withCurrentState (SnapshotOf RootObj) self)) = []).
  { cbn. now rewrite A. }
  split; [exact M|]. split.
  - intros Square. destruct (IsSquareValid (NormalizeSquare Square)) eqn:V.
    + rewrite (SelectSquare_valid _ _ V). cbv zeta. now rewrite M.
    + now rewrite (SelectSquare_invalid _ _ V).
  - intros h' Target.
    remember (withCurrentState (SnapshotOf RootObj) self) as after.
    destruct (IsSquareValid (FromOf after)) eqn:V1.
    2:{ now rewrite (TryMoveSelectedTo_no_selection h' Target after V1). }
    destruct (IsSquareValid (NormalizeSquare Target)) eqn:V2.
    2:{ now rewrite (TryMoveSelectedTo_bad_target h' Target after V1 V2). }
    rewrite (TryMoveSelectedTo_valid h' Target after V1 V2). cbv zeta.
    now rewrite M.
Qed.


(** ** Squares and indices *)

Lemma SquareAt_valid f r :
  (0 <= f <= 7)%Z -> (0 <= r <= 7)%Z ->
  IsSquareValid (SquareAt f r) = true /\
  FileIndexOf (SquareAt f r) = f /\ RankIndexOf (SquareAt f r) = r.
Proof.
  intros Hf Hr.
  assert (Ef : (f = 0 \/ f = 1 \/ f = 2 \/ f = 3 \/ f = 4 \/ f = 5 \/ f = 6 \/ f = 7)%Z) by lia.
  assert (Er : (r = 0 \/ r = 1 \/ r = 2 \/ r = 3 \/ r = 4 \/ r = 5 \/ r = 6 \/ r = 7)%Z) by lia.
  repeat (destruct Ef as [->|Ef]); try subst f;
    repeat (destruct Er as [->|Er]); try subst r; repeat split; reflexivity.
Qed.

Lemma CharOf_CharCode base c :
  (CharCode base <= CharCode c)%Z -> CharOf (CharCode base + (CharCode c - CharCode base)) = c.
Proof.
  intros H. unfold CharOf, CharCode in *.
  replace (Z.of_N (N_of_ascii base) + (Z.of_N (N_of_ascii c) - Z.of_N (N_of_ascii base)))%Z
    with (Z.of_N (N_of_ascii c)) by lia.
  rewrite N2Z.id. apply ascii_N_embedding.
Qed.

Lemma valid_indices s :
  IsSquareValid s = true ->
  (0 <= FileIndexOf s <= 7)%Z /\ (0 <= RankIndexOf s <= 7)%Z /\
  SquareAt (FileIndexOf s) (RankIndexOf s) = s.
Proof.
  rewrite IsSquareValid_iff. intros (f & r & -> & [H1 H2] & [H3 H4]).
  change (N_of_ascii "a") with 97%N in H1. change (N_of_ascii "h") with 104%N in H2.
  change (N_of_ascii "1") with 49%N in H3. change (N_of_ascii "8") with 56%N in H4.
  unfold FileIndexOf, RankIndexOf, SquareAt. cbn [At String.get].
  assert (Cf : (CharCode "a" <= CharCode f)%Z) by (unfold CharCode; cbn; lia).
  assert (Cr : (CharCode "1" <= CharCode r)%Z) by (unfold CharCode; cbn; lia).
  rewrite (CharOf_CharCode "a" f Cf), (CharOf_CharCode "1" r Cr).
  unfold CharCode in *. cbn in *. repeat split; lia.
Qed.

(** X12.  [SquareToWorld] answers a square that is not well-formed after
    normalising with the board origin, whatever the height offset; for a
    well-formed one the file and rank indices it computes lie in 0..7,
    name the square again through the characters [WorldToSquare] prints,
    and the position is the origin plus the two centre offsets and the
    height offset. *)
Theorem SquareToWorld_and_back (fo : FloatOps) (self : AChessBoardActor fo)
    (Square : string) (HeightOffset : float fo) :
  (IsSquareValid (NormalizeSquare Square) = false ->
     SquareToWorld self Square HeightOffset = BoardOrigin self) /\
  (IsSquareValid (NormalizeSquare Square) = true ->
     (0 <= FileIndexOf (NormalizeSquare Square) <= 7)%Z /\
     (0 <= RankIndexOf (NormalizeSquare Square) <= 7)%Z /\
     SquareAt (FileIndexOf (NormalizeSquare Square)) (RankIndexOf (NormalizeSquare Square))
       = NormalizeSquare Square /\
     SquareToWorld self Square HeightOffset =
       VAdd (BoardOrigin self)
            (FVector.Make (Offset self (FileIndexOf (NormalizeSquare Square)))
                          (Offset self (RankIndexOf (NormalizeSquare Square)))
                          HeightOffset)).
Proof.
  unfold SquareToWorld. split; intros V; rewrite V; cbn [negb]; [reflexivity|].
  destruct (valid_indices _ V) as (H1 & H2 & H3). auto.
Qed.

Lemma WorldToSquare_inside {fo} (self : AChessBoardActor fo) W out :
  (0 <= ClickFileIndex self W <= 7)%Z -> (0 <= ClickRankIndex self W <= 7)%Z ->
  WorldToSquare self W out =
  (true, SquareAt (ClickFileIndex self W) (ClickRankIndex self W)).
Proof.
  intros Hf Hr. unfold WorldToSquare. cbv zeta.
  destruct (Z.ltb_spec (ClickFileIndex self W) 0); [lia|].
  destruct (Z.ltb_spec 7 (ClickFileIndex self W)); [lia|].
  destruct (Z.ltb_spec (ClickRankIndex self W) 0); [lia|].
  destruct (Z.ltb_spec 7 (ClickRankIndex self W)); [lia|].
  reflexivity.
Qed.

Lemma WorldToSquare_outside {fo} (self : AChessBoardActor fo) W out :
  ~ ((0 <= ClickFileIndex self W <= 7)%Z /\ (0 <= ClickRankIndex self W <= 7)%Z) ->
  WorldToSquare self W out = (false, out).
Proof.
  intros N. unfold WorldToSquare. cbv zeta.
  destruct (Z.ltb_spec (ClickFileIndex self W) 0); [reflexivity|].
  destruct (Z.ltb_spec 7 (ClickFileIndex self W)); [reflexivity|].
  destruct (Z.ltb_spec (ClickRankIndex self W) 0); [reflexivity|].
  destruct (Z.ltb_spec 7 (ClickRankIndex self W)); [reflexivity|].
  exfalso. apply N. lia.
Qed.

Lemma WorldToSquare_true {fo} (self : AChessBoardActor fo) W out sq :
  WorldToSquare self W out = (true, sq) ->
  IsSquareValid sq = true /\ NormalizeSquare sq = sq /\
  sq = SquareAt (ClickFileIndex self W) (ClickRankIndex self W) /\
  (0 <= ClickFileIndex self W <= 7)%Z /\ (0 <= ClickRankIndex self W <= 7)%Z.
Proof.
  intros H.
  assert (I : (0 <= ClickFileIndex self W <= 7)%Z /\ (0 <= ClickRankIndex self W <= 7)%Z).
  { destruct (Z_le_dec 0 (ClickFileIndex self W)), (Z_le_dec (ClickFileIndex self W) 7),
             (Z_le_dec 0 (ClickRankIndex self W)), (Z_le_dec (ClickRankIndex self W) 7);
      try lia; rewrite WorldToSquare_outside in H by lia; discriminate. }
  destruct I as (If & Ir). rewrite (WorldToSquare_inside self W out If Ir) in H.
  injection H as <-. destruct (SquareAt_valid _ _ If Ir) as (V & _).
  repeat split; try assumption; try lia. now apply NormalizeSquare_valid.
Qed.

(** X13.  [WorldToSquare] succeeds exactly when both floor indices lie in
    0..7.  Then the square it writes is well-formed and already in normal
    form, and [SquareToWorld] sends it to the centre of the tile with
    these indices.  Otherwise it returns false and leaves [OutSquare] as
    it was. *)
Theorem WorldToSquare_result (fo : FloatOps) (self : AChessBoardActor fo)
    (WorldLocation : FVector.t fo) (OutSquare : string) (HeightOffset : float fo) :
  ((0 <= ClickFileIndex self WorldLocation <= 7)%Z /\
   (0 <= ClickRankIndex self WorldLocation <= 7)%Z ->
   exists sq,
     WorldToSquare self WorldLocation OutSquare = (true, sq) /\
     IsSquareValid sq = true /\ NormalizeSquare sq = sq /\
     SquareToWorld self sq HeightOffset =
       VAdd (BoardOrigin self)
            (FVector.Make (Offset self (ClickFileIndex self WorldLocation))
                          (Offset self (ClickRankIndex self WorldLocation))
                          HeightOffset)) /\
  (~ ((0 <= ClickFileIndex self WorldLocation <= 7)%Z /\
      (0 <= ClickRankIndex self WorldLocation <= 7)%Z) ->
   WorldToSquare self WorldLocation OutSquare = (false, OutSquare)).
Proof.
  split; [|apply WorldToSquare_outside].
  intros (If & Ir). exists (SquareAt (ClickFileIndex self WorldLocation)
                                    (ClickRankIndex self WorldLocation)).
  destruct (SquareAt_valid _ _ If Ir) as (V & Ef & Er).
  split; [now apply WorldToSquare_inside|]. split; [assumption|].
  split; [now apply NormalizeSquare_valid|].
  unfold SquareToWorld. rewrite (NormalizeSquare_valid _ V), V. cbn [negb].
  now rewrite Ef, Er.
Qed.

(** ** ClickWorldLocation *)

Lemma ClickedSquare_valid {fo} (self : AChessBoardActor fo) W :
  OnBoard self W ->
  IsSquareValid (ClickedSquare self W) = true /\
  NormalizeSquare (ClickedSquare self W) = ClickedSquare self W.
Proof.
  intros (If & Ir). destruct (SquareAt_valid _ _ If Ir) as (V & _).
  split; [assumption | now apply NormalizeSquare_valid].
Qed.

Lemma ClickWorldLocation_on_board {fo} h (self : AChessBoardActor fo) gsc W :
  GameStateComponent self = Some gsc -> OnBoard self W ->
  ClickWorldLocation h self W =
  let sq := ClickedSquare self W in
  if negb (IsEmpty (SelectedSquare (CurrentState gsc))) &&
     TArray.Contains (LegalTargets (CurrentState gsc)) sq
  then
    let o := TryMoveSelectedTo h sq gsc in
    MkBoardOutcome (Ret o) (withGameStateComponent (Some (Self o)) self) (Emitted o)
  else
    let o := SelectSquare sq gsc in
    MkBoardOutcome
      (Ret o, if Ret o then "" else "Square " ++ sq ++ " is not selectable for current turn.")
      (withGameStateComponent (Some (Self o)) self) (Emitted o).
Proof.
  intros G B. unfold ClickWorldLocation. rewrite G.
  destruct B as (If & Ir). rewrite (WorldToSquare_inside self W "" If Ir).
  fold (ClickedSquare self W).
  destruct (ClickedSquare_valid self W (conj If Ir)) as (_ & N). now rewrite N.
Qed.

(** X14.  A click is turned away without touching anything when the actor has
    no state component, and when it falls outside the eight by eight
    board: false is returned with the matching text, the actor and its
    component are as before, nothing is broadcast and no exporter runs. *)
Theorem ClickWorldLocation_rejects (fo : FloatOps) (h : Host) (self : AChessBoardActor fo)
    (WorldLocation : FVector.t fo) :
  (GameStateComponent self = None ->
     ClickWorldLocation h self WorldLocation =
     MkBoardOutcome (false, "GameStateComponent is not set on ChessBoardActor.") self []) /\
  (GameStateComponent self <> None -> ~ OnBoard self WorldLocation ->
     ClickWorldLocation h self WorldLocation =
     MkBoardOutcome (false, "Click is outside board bounds.") self []).
Proof.
  unfold ClickWorldLocation. split.
  - now intros ->.
  - intros G N. destruct (GameStateComponent self); [|congruence].
    now rewrite (WorldToSquare_outside self WorldLocation "" N).
Qed.

(** X15.  A click on the board with nothing selected, or on a square that is
    not among the targets, only selects: it is [SelectSquare] on a
    well-formed square, so observers are notified exactly once, no
    exporter runs, the move history is untouched, and the error text is
    empty exactly when true is returned.  A click on a target while a
    square is selected is [TryMoveSelectedTo] on that target. *)
Theorem ClickWorldLocation_selects_or_moves (fo : FloatOps) (h : Host)
    (self : AChessBoardActor fo) (gsc : UChessGameStateComponent)
    (WorldLocation : FVector.t fo) :
  GameStateComponent self = Some gsc -> OnBoard self WorldLocation ->
  (SelectedSquare (CurrentState gsc) = "" \/
   TArray.Contains (LegalTargets (CurrentState gsc)) (ClickedSquare self WorldLocation) = false ->
     fst (BRet (ClickWorldLocation h self WorldLocation))
       = Ret (SelectSquare (ClickedSquare self WorldLocation) gsc) /\
     GameStateComponent (BSelf (ClickWorldLocation h self WorldLocation))
       = Some (Self (SelectSquare (ClickedSquare self WorldLocation) gsc)) /\
     BEmitted (ClickWorldLocation h self WorldLocation) = [EvBroadcast] /\
     MoveHistoryUci (Self (SelectSquare (ClickedSquare self WorldLocation) gsc))
       = MoveHistoryUci gsc /\
     (snd (BRet (ClickWorldLocation h self WorldLocation)) = "" <->
      fst (BRet (ClickWorldLocation h self WorldLocation)) = true)) /\
  (SelectedSquare (CurrentState gsc) <> "" ->
   TArray.Contains (LegalTargets (CurrentState gsc)) (ClickedSquare self WorldLocation) = true ->
     BRet (ClickWorldLocation h self WorldLocation)
       = Ret (TryMoveSelectedTo h (ClickedSquare self WorldLocation) gsc) /\
     GameStateComponent (BSelf (ClickWorldLocation h self WorldLocation))
       = Some (Self (TryMoveSelectedTo h (ClickedSquare self WorldLocation) gsc)) /\
     BEmitted (ClickWorldLocation h self WorldLocation)
       = Emitted (TryMoveSelectedTo h (ClickedSquare self WorldLocation) gsc)).
Proof.
  intros G B. rewrite (ClickWorldLocation_on_board h self gsc WorldLocation G B). cbv zeta.
  destruct (ClickedSquare_valid self WorldLocation B) as (V & N).
  split.
  - intros D.
    assert (E : negb (IsEmpty (SelectedSquare (CurrentState gsc))) &&
                TArray.Contains (LegalTargets (CurrentState gsc))
                                (ClickedSquare self WorldLocation) = false).
    { destruct D as [-> | ->]; [reflexivity | apply andb_false_r]. }
    rewrite E. cbn [BRet BSelf BEmitted fst snd].
    assert (V' : IsSquareValid (NormalizeSquare (ClickedSquare self WorldLocation)) = true)
      by now rewrite N.
    rewrite (SelectSquare_valid _ gsc V'). cbv zeta.
    destruct (TargetsOf _ _); cbn; repeat split; try reflexivity; discriminate.
  - intros S C. rewrite C.
    destruct (SelectedSquare (CurrentState gsc)); [congruence|]. cbn. auto.
Qed.

Lemma In_Contains l x : In x l -> TArray.Contains l x = true.
Proof. intros I. apply Contains_iff. now apply in_map. Qed.

(** X16.  The second click of a move.  When the component the actor points to
    has just had a square selected by a successful [SelectSquare], a click
    on the board on one of the targets is carried out as a move: a legal
    move beginning with the selected square and the clicked one is
    appended and the refresh runs, and the click returns what that
    returns. *)
Theorem click_on_offered_target_moves (fo : FloatOps) (h : Host)
    (self : AChessBoardActor fo) (gsc : UChessGameStateComponent)
    (Square : string) (WorldLocation : FVector.t fo) :
  Ret (SelectSquare Square gsc) = true ->
  GameStateComponent self = Some (Self (SelectSquare Square gsc)) ->
  OnBoard self WorldLocation ->
  In (ClickedSquare self WorldLocation)
     (LegalTargets (CurrentState (Self (SelectSquare Square gsc)))) ->
  exists m,
    In m (LegalMovesUci (CurrentState gsc)) /\
    StartsWith m (NormalizeSquare Square ++ ClickedSquare self WorldLocation) = true /\
    BRet (ClickWorldLocation h self WorldLocation)
      = Ret (CommitMove h (Self (SelectSquare Square gsc)) m) /\
    GameStateComponent (BSelf (ClickWorldLocation h self WorldLocation))
      = Some (Self (CommitMove h (Self (SelectSquare Square gsc)) m)) /\
    BEmitted (ClickWorldLocation h self WorldLocation)
      = Emitted (CommitMove h (Self (SelectSquare Square gsc)) m).
Proof.
  intros R G B I.
  destruct (ClickedSquare_valid self WorldLocation B) as (V & _).
  destruct (target_playable h Square _ gsc R I V) as (m & Im & Sm & E).
  exists m. split; [assumption|]. split; [assumption|].
  rewrite (ClickWorldLocation_on_board h self _ WorldLocation G B). cbv zeta.
  rewrite (In_Contains _ _ I), andb_true_r.
  assert (S : IsEmpty (SelectedSquare (CurrentState (Self (SelectSquare Square gsc)))) = false).
  { destruct (IsSquareValid (NormalizeSquare Square)) eqn:VS.
    - revert R. rewrite (SelectSquare_valid _ _ VS). cbv zeta.
      destruct (TargetsOf _ _); cbn; [discriminate|]. intros _.
      destruct (NormalizeSquare Square); [discriminate | reflexivity].
    - rewrite (SelectSquare_invalid _ _ VS) in R. discriminate. }
  rewrite S. cbn [negb BRet BSelf BEmitted]. rewrite E. auto.
Qed.

(** ** RebuildPiecesFromFen *)

Lemma PlaceRow_spec {fo} (self : AChessBoardActor fo) R Row File W B :
  PlaceRow self R Row File W B =
  ((W ++ map (fun fc => PieceTransform self (fst fc) R (snd fc))
             (filter (fun fc => IsUpper (snd fc)) (RowPieces Row File)))%list,
   (B ++ map (fun fc => PieceTransform self (fst fc) R (snd fc))
             (filter (fun fc => negb (IsUpper (snd fc))) (RowPieces Row File)))%list).
Proof.
  revert File W B. induction Row as [|c Row IH]; intros File W B; cbn [PlaceRow RowPieces].
  - cbn. now rewrite !app_nil_r.
  - destruct (IsDigit c); [apply IH|].
    destruct ((File <? 0)%Z || (7 <? File)%Z); [cbn; now rewrite !app_nil_r|].
    cbv zeta. cbn [filter map fst snd].
    destruct (IsUpper c); rewrite IH; cbn [negb map]; now rewrite <- app_assoc.
Qed.

Lemma PlaceRows_spec {fo} (self : AChessBoardActor fo) Rows FenRow W B :
  PlaceRows self Rows FenRow W B =
  ((W ++ map (TransformOf self) (filter IsWhitePiece (RowsPieces Rows FenRow)))%list,
   (B ++ map (TransformOf self) (filter IsBlackPiece (RowsPieces Rows FenRow)))%list).
Proof.
  revert FenRow W B. induction Rows as [|Row Rows IH]; intros FenRow W B;
    cbn [PlaceRows RowsPieces].
  - cbn. now rewrite !app_nil_r.
  - cbv zeta. rewrite PlaceRow_spec, IH.
    rewrite !filter_app, !map_app, <- !app_assoc. f_equal; f_equal; f_equal.
    + induction (RowPieces Row 0) as [|[f c] l IHl]; [reflexivity|].
      cbn [filter map fst snd]. unfold IsWhitePiece at 1. cbn [PieceSymbol snd].
      destruct (IsUpper c); cbn [map]; now rewrite IHl.
    + induction (RowPieces Row 0) as [|[f c] l IHl]; [reflexivity|].
      cbn [filter map fst snd]. unfold IsBlackPiece at 1. cbn [PieceSymbol snd].
      destruct (IsUpper c); cbn [negb map]; now rewrite IHl.
Qed.

Lemma RebuildPiecesFromFen_spec {fo} (self : AChessBoardActor fo) Fen :
  RebuildPiecesFromFen self Fen =
  withPieces (map (TransformOf self) (filter IsWhitePiece (FenPieces Fen)))
             (map (TransformOf self) (filter IsBlackPiece (FenPieces Fen))) self.
Proof.
  unfold RebuildPiecesFromFen, FenPieces. fold (BoardPart Fen). cbv zeta.
  destruct (IsEmpty (BoardPart Fen)) eqn:E.
  - destruct (BoardPart Fen); [reflexivity | discriminate].
  - destruct (Nat.eqb (length (ParseIntoArray (BoardPart Fen) "/")) 8); cbn [negb];
      [|reflexivity].
    rewrite PlaceRows_spec. reflexivity.
Qed.

Lemma IsDigit_value c : IsDigit c = true -> (0 <= CharCode c - CharCode "0" <= 9)%Z.
Proof.
  unfold IsDigit, CharCode. rewrite andb_true_iff, !N.leb_le. cbn. lia.
Qed.

Lemma RowPieces_files Row File :
  Forall (fun fc => (0 <= fst fc <= 7)%Z /\ (File <= fst fc)%Z) (RowPieces Row File).
Proof.
  revert File. induction Row as [|c Row IH]; intros File; cbn [RowPieces]; [constructor|].
  destruct (IsDigit c) eqn:D.
  - apply IsDigit_value in D. eapply Forall_impl; [|apply IH]. intros fc. cbv beta. lia.
  - destruct (Z.ltb_spec File 0); cbn [orb]; [constructor|].
    destruct (Z.ltb_spec 7 File); [constructor|].
    constructor; [cbn [fst]; lia|]. eapply Forall_impl; [|apply IH]. intros fc. cbv beta. lia.
Qed.

Lemma RowPieces_NoDup Row File : NoDup (map fst (RowPieces Row File)).
Proof.
  revert File. induction Row as [|c Row IH]; intros File; cbn [RowPieces]; [constructor|].
  destruct (IsDigit c); [apply IH|].
  destruct ((File <? 0)%Z || (7 <? File)%Z); [constructor|].
  cbn [map fst]. constructor; [|apply IH].
  intros I. apply in_map_iff in I as (fc & E & I).
  pose proof (RowPieces_files Row (File + 1)) as F. rewrite Forall_forall in F.
  specialize (F fc I). lia.
Qed.

Lemma RowPieces_length Row File :
  (0 <= File)%Z -> length (RowPieces Row File) <= Z.to_nat (8 - File).
Proof.
  revert File. induction Row as [|c Row IH]; intros File H; cbn [RowPieces]; [cbn; lia|].
  destruct (IsDigit c) eqn:D.
  - apply IsDigit_value in D.
    specialize (IH (File + (CharCode c - CharCode "0"))%Z). lia.
  - destruct (Z.ltb_spec File 0); cbn [orb]; [cbn; lia|].
    destruct (Z.ltb_spec 7 File); [cbn; lia|].
    cbn [length]. specialize (IH (File + 1)%Z). lia.
Qed.

Lemma RowsPieces_bounds Rows FenRow :
  Forall (fun p => (0 <= PieceFile p <= 7)%Z /\
                   (7 - FenRow - Z.of_nat (length Rows) < PieceRank p <= 7 - FenRow)%Z)
         (RowsPieces Rows FenRow).
Proof.
  revert FenRow. induction Rows as [|Row Rows IH]; intros FenRow; cbn [RowsPieces];
    [constructor|].
  apply Forall_app. split.
  - apply Forall_map. eapply Forall_impl; [|apply (RowPieces_files Row 0)].
    intros fc [H _]. unfold PieceFile, PieceRank. cbn [fst snd length]. lia.
  - eapply Forall_impl; [|apply IH]. intros p. cbn [length]. lia.
Qed.

Lemma RowsPieces_NoDup Rows FenRow : NoDup (map PieceSquare (RowsPieces Rows FenRow)).
Proof.
  revert FenRow. induction Rows as [|Row Rows IH]; intros FenRow; cbn [RowsPieces];
    [constructor|].
  rewrite map_app. apply NoDup_app.
  - rewrite map_map. unfold PieceSquare. cbn [fst].
    pose proof (RowPieces_NoDup Row 0) as N.
    induction (RowPieces Row 0) as [|fc l IHl]; [constructor|].
    cbn [map] in *. inversion N as [|? ? N1 N2]; subst. constructor; [|auto].
    intros I. apply N1. apply in_map_iff in I as (x & E & I).
    injection E as E. rewrite <- E. now apply in_map.
  - apply IH.
  - intros sq I1 I2.
    apply in_map_iff in I1 as (p1 & E1 & I1). apply in_map_iff in I1 as (fc & Ef & _).
    apply in_map_iff in I2 as (p2 & E2 & I2).
    pose proof (RowsPieces_bounds Rows (FenRow + 1)) as B. rewrite Forall_forall in B.
    destruct (B p2 I2) as (_ & _ & H).
    assert (R1 : snd sq = (7 - FenRow)%Z) by (rewrite <- E1, <- Ef; reflexivity).
    assert (R2 : snd sq = PieceRank p2) by (rewrite <- E2; reflexivity).
    lia.
Qed.

Lemma RowsPieces_length Rows FenRow :
  length (RowsPieces Rows FenRow) <= 8 * length Rows.
Proof.
  revert FenRow. induction Rows as [|Row Rows IH]; intros FenRow; cbn [RowsPieces];
    [cbn; lia|].
  rewrite length_app, length_map. specialize (IH (FenRow + 1)%Z).
  pose proof (RowPieces_length Row 0 ltac:(lia)) as H.
  change (Z.to_nat (8 - 0)) with 8 in H. cbn [length]. unfold Piece in *. lia.
Qed.

Lemma FenPieces_on_board Fen :
  Forall (fun p => (0 <= PieceFile p <= 7)%Z /\ (0 <= PieceRank p <= 7)%Z) (FenPieces Fen) /\
  NoDup (map PieceSquare (FenPieces Fen)) /\
  length (FenPieces Fen) <= 64.
Proof.
  unfold FenPieces. cbv zeta.
  destruct (Nat.eqb_spec (length (ParseIntoArray (BoardPart Fen) "/")) 8) as [E|E].
  - split; [|split].
    + eapply Forall_impl; [|apply RowsPieces_bounds]. intros p. rewrite E. lia.
    + apply RowsPieces_NoDup.
    + pose proof (RowsPieces_length (ParseIntoArray (BoardPart Fen) "/") 0). lia.
  - split; [constructor|]. split; [constructor | cbn; lia].
Qed.

Lemma filter_partition_length {A} (f : A -> bool) l :
  length (filter f l) + length (filter (fun x => negb (f x)) l) = length l.
Proof. induction l as [|x l IH]; cbn; [reflexivity|]. destruct (f x); cbn; lia. Qed.

(** X17.  [RebuildPiecesFromFen] never puts a piece off the board or two
    pieces on one square.  The white and black instances are, in order,
    the transforms of the upper-case and of the other pieces of the
    position text; every piece has file and rank index in 0..7, no two
    share a square, so there are sixty-four at most; and every piece is
    centred over the point [SquareToWorld] gives for its square. *)
Theorem RebuildPiecesFromFen_on_the_board (fo : FloatOps) (self : AChessBoardActor fo)
    (Fen : string) :
  WhitePieceInstances (RebuildPiecesFromFen self Fen)
    = map (TransformOf self) (filter IsWhitePiece (FenPieces Fen)) /\
  BlackPieceInstances (RebuildPiecesFromFen self Fen)
    = map (TransformOf self) (filter IsBlackPiece (FenPieces Fen)) /\
  Forall (fun p => (0 <= PieceFile p <= 7)%Z /\ (0 <= PieceRank p <= 7)%Z /\
                   Location (TransformOf self p) =
                   SquareToWorld self (SquareAt (PieceFile p) (PieceRank p))
                                 (PieceCentreZ self (PieceSymbol p)))
         (FenPieces Fen) /\
  NoDup (map PieceSquare (FenPieces Fen)) /\
  length (WhitePieceInstances (RebuildPiecesFromFen self Fen))
  + length (BlackPieceInstances (RebuildPiecesFromFen self Fen)) <= 64.
Proof.
  rewrite RebuildPiecesFromFen_spec. cbn [WhitePieceInstances BlackPieceInstances withPieces].
  destruct (FenPieces_on_board Fen) as (B & N & L).
  split; [reflexivity|]. split; [reflexivity|]. split; [|split; [assumption|]].
  - eapply Forall_impl; [|exact B]. intros p (Hf & Hr).
    split; [assumption|]. split; [assumption|].
    destruct (SquareAt_valid _ _ Hf Hr) as (V & Ef & Er).
    unfold SquareToWorld. rewrite (NormalizeSquare_valid _ V), V. cbn [negb].
    now rewrite Ef, Er.
  - rewrite !length_map. unfold IsBlackPiece.
    change (fun p => negb (IsUpper (PieceSymbol p))) with (fun p => negb (IsWhitePiece p)).
    rewrite filter_partition_length. exact L.
Qed.

(** X18.  [RebuildPiecesFromFen] keeps nothing of the pieces shown before:
    the result depends on the position text and the actor's measures only,
    so rebuilding twice is rebuilding once with the last text; the tiles
    and the component pointer are untouched; and a text whose board part
    does not split into exactly eight non-empty rows leaves the board
    without pieces. *)
Theorem RebuildPiecesFromFen_forgets (fo : FloatOps) (self : AChessBoardActor fo)
    (Earlier Fen : string) :
  RebuildPiecesFromFen (RebuildPiecesFromFen self Earlier) Fen = RebuildPiecesFromFen self Fen /\
  LightTileInstances (RebuildPiecesFromFen self Fen) = LightTileInstances self /\
  DarkTileInstances (RebuildPiecesFromFen self Fen) = DarkTileInstances self /\
  GameStateComponent (RebuildPiecesFromFen self Fen) = GameStateComponent self /\
  (length (ParseIntoArray (BoardPart Fen) "/") <> 8 ->
   WhitePieceInstances (RebuildPiecesFromFen self Fen) = [] /\
   BlackPieceInstances (RebuildPiecesFromFen self Fen) = []).
Proof.
  rewrite !RebuildPiecesFromFen_spec.
  split; [reflexivity|]. split; [reflexivity|]. split; [reflexivity|].
  split; [reflexivity|].
  intros N. unfold FenPieces. cbv zeta.
  destruct (Nat.eqb_spec (length (ParseIntoArray (BoardPart Fen) "/")) 8); [contradiction|].
  split; reflexivity.
Qed.

(** ** BuildBoardTiles *)

Lemma BuildBoardTiles_spec {fo} (self : AChessBoardActor fo) :
  BuildBoardTiles self =
  withTiles (map (TileAt self) (filter IsLightSquare BoardSquares))
            (map (TileAt self) (filter (fun sq => negb (IsLightSquare sq)) BoardSquares))
            self.
Proof. reflexivity. Qed.

(** X19.  [BuildBoardTiles] lays sixty-four tiles, thirty-two light and
    thirty-two dark, whatever was there before; the tile of a square is
    centred over the point [SquareToWorld] gives for that square; and
    building again changes nothing. *)
Theorem BuildBoardTiles_covers_the_board (fo : FloatOps) (self : AChessBoardActor fo) :
  LightTileInstances (BuildBoardTiles self)
    = map (TileAt self) (filter IsLightSquare BoardSquares) /\
  DarkTileInstances (BuildBoardTiles self)
    = map (TileAt self) (filter (fun sq => negb (IsLightSquare sq)) BoardSquares) /\
  length (LightTileInstances (BuildBoardTiles self)) = 32 /\
  length (DarkTileInstances (BuildBoardTiles self)) = 32 /\
  Forall (fun sq => Location (TileAt self sq) =
                    SquareToWorld self (SquareAt (fst sq) (snd sq))
                                  (fmul fo (TileThickness self) (Decimal fo 5 1)))
         BoardSquares /\
  BuildBoardTiles (BuildBoardTiles self) = BuildBoardTiles self.
Proof.
  rewrite !BuildBoardTiles_spec.
  split; [reflexivity|]. split; [reflexivity|].
  split; [reflexivity|]. split; [reflexivity|]. split; [|reflexivity].
  apply Forall_forall. intros [f r] I.
  assert (B : (0 <= f <= 7)%Z /\ (0 <= r <= 7)%Z).
  { unfold BoardSquares, Indices in I. apply in_flat_map in I as (r' & Ir & I).
    apply in_map_iff in I as (f' & E & If). injection E as <- <-.
    apply in_map_iff in Ir as (n & <- & In1). apply in_map_iff in If as (k & <- & In2).
    apply in_seq in In1, In2. lia. }
  destruct B as (Hf & Hr). destruct (SquareAt_valid _ _ Hf Hr) as (V & Ef & Er).
  cbn [fst snd]. unfold SquareToWorld. rewrite (NormalizeSquare_valid _ V), V. cbn [negb].
  now rewrite Ef, Er.
Qed.


(** ** The board shows the snapshot *)

(** X20.  The pieces the actor shows are those of the position text in the
    snapshot of its component: [HandleStateChanged] and [RebuildVisuals]
    give the same pieces; without a component [HandleStateChanged] does
    nothing and [RebuildVisuals] shows the empty board; and in both cases
    [RebuildVisuals] lays the tiles as [BuildBoardTiles] does. *)
Theorem visuals_follow_the_snapshot (fo : FloatOps) (self : AChessBoardActor fo) :
  (GameStateComponent self = None ->
     HandleStateChanged self = self /\
     WhitePieceInstances (RebuildVisuals self) = [] /\
     BlackPieceInstances (RebuildVisuals self) = []) /\
  (forall gsc, GameStateComponent self = Some gsc ->
     HandleStateChanged self = RebuildPiecesFromFen self (Fen (CurrentState gsc)) /\
     WhitePieceInstances (RebuildVisuals self) = WhitePieceInstances (HandleStateChanged self) /\
     BlackPieceInstances (RebuildVisuals self) = BlackPieceInstances (HandleStateChanged self)) /\
  LightTileInstances (RebuildVisuals self) = LightTileInstances (BuildBoardTiles self) /\
  DarkTileInstances (RebuildVisuals self) = DarkTileInstances (BuildBoardTiles self).
Proof.
  unfold RebuildVisuals, HandleStateChanged. rewrite BuildBoardTiles_spec.
  cbn [GameStateComponent withTiles].
  split; [|split].
  - intros ->. repeat split; reflexivity.
  - intros gsc ->. rewrite !RebuildPiecesFromFen_spec. repeat split; reflexivity.
  - destruct (GameStateComponent self); [rewrite RebuildPiecesFromFen_spec|];
      split; reflexivity.
Qed.

Lemma history_invariant_witness :
  Forall MoveShaped
    (MoveHistoryUci
       (PerformAll [Refresh (HostOf 0 (Some opening_doc)); Select "e2";
                    TryMove (HostOf 0 (Some opening_doc)) "e4"] NewComponent)).
Proof.
  apply (history_invariant _ NewComponent). constructor.
Defined.

Lemma SelectSquare_overrides_witness :
  SelectSquare "b1" (Self (SelectSquare "e2" board_e2)) = SelectSquare "b1" board_e2.
Proof.
  apply (SelectSquare_overrides "e2" "b1" board_e2). reflexivity.
Defined.

Lemma offered_target_is_playable_witness :
  exists m,
    In m (LegalMovesUci (CurrentState board_e2)) /\
    StartsWith m (NormalizeSquare "e2" ++ "e4") = true /\
    TryMoveSelectedTo (HostOf 1 None) "e4" (Self (SelectSquare "e2" board_e2)) =
    CommitMove (HostOf 1 None) (Self (SelectSquare "e2" board_e2)) m.
Proof.
  apply (offered_target_is_playable (HostOf 1 None) "e2" "e4" board_e2).
  - reflexivity.
  - right. left. reflexivity.
  - reflexivity.
Defined.

Lemma silent_doc_goes_through :
  RefreshGoesThrough (HostOf 0 (Some silent_doc)) NewComponent silent_doc.
Proof.
  repeat split; try reflexivity; try discriminate.
  exists "state_payload". split; reflexivity.
Qed.

Lemma no_legal_moves_no_interaction_witness :
  Ret (SelectSquare "e2" (Self (RefreshState (HostOf 0 (Some silent_doc)) NewComponent)))
  = false.
Proof.
  destruct (no_legal_moves_no_interaction (HostOf 0 (Some silent_doc)) NewComponent silent_doc
              silent_doc_goes_through eq_refl) as (_ & S & _).
  exact (S "e2").
Defined.

Lemma over_e2_on_board : OnBoard opening_board over_e2.
Proof. vm_compute. repeat split; discriminate. Qed.

Lemma over_e4_on_board : OnBoard selected_board over_e4.
Proof. vm_compute. repeat split; discriminate. Qed.

Lemma ClickWorldLocation_selects_or_moves_witness :
  BEmitted (ClickWorldLocation (HostOf 0 None) opening_board over_e2) = [EvBroadcast].
Proof.
  destruct (ClickWorldLocation_selects_or_moves QFloat (HostOf 0 None) opening_board _ over_e2
              eq_refl over_e2_on_board) as (S & _).
  destruct (S (or_introl eq_refl)) as (_ & _ & E & _). exact E.
Defined.

Lemma click_on_offered_target_moves_witness :
  exists m,
    StartsWith m (NormalizeSquare "e2" ++ ClickedSquare selected_board over_e4) = true /\
    BEmitted (ClickWorldLocation (HostOf 0 (Some opening_doc)) selected_board over_e4)
    = Emitted (CommitMove (HostOf 0 (Some opening_doc)) board_e2_selected m).
Proof.
  destruct (click_on_offered_target_moves QFloat (HostOf 0 (Some opening_doc)) selected_board
              (Self (RefreshState (HostOf 0 (Some opening_doc)) NewComponent)) "e2" over_e4)
    as (m & _ & S & _ & _ & E).
  - reflexivity.
  - reflexivity.
  - exact over_e4_on_board.
  - right. left. reflexivity.
  - exists m. split; assumption.
Defined.

Example click_e2_then_e4 :
  ClickedSquare opening_board over_e2 = "e2" /\
  ClickedSquare selected_board over_e4 = "e4" /\
  option_map MoveHistoryUci
    (GameStateComponent
       (BSelf (ClickWorldLocation (HostOf 0 (Some opening_doc)) selected_board over_e4)))
  = Some ["e2e4"].
Proof. repeat split; reflexivity. Qed.

Example start_position_pieces :
  length (WhitePieceInstances (RebuildPiecesFromFen (DefaultBoard None) (StartFen NewComponent)))
  = 16 /\
  length (BlackPieceInstances (RebuildPiecesFromFen (DefaultBoard None) (StartFen NewComponent)))
  = 16.
Proof. split; reflexivity. Qed.

